(** * Folder permissions of the Grafana Terraform provider

    A shallow embedding of
    [internal/resources/grafana/resource_folder_permission.go]:
    the conversion of declared permission entries to grant commands and
    back, the hash of the declared set, the identifier codec, and the
    create/update, read and delete callbacks over an abstract Grafana
    client. *)

From Stdlib Require Import ZArith List String Ascii Bool Lia.
From Stdlib Require Import Decimal DecimalString DecimalPos DecimalZ.
From stdpp Require Import base option list gmap strings.

Local Open Scope string_scope.
Local Open Scope Z_scope.

(** ** Go's [strconv], at the two calls the resource makes:
    [strconv.ParseInt(s, 10, 64)] and [strconv.FormatInt(i, 10)]. *)

Module strconv.

(** [NumError.Err]: the two sentinel errors a parse can report. *)
Inductive NumError : Set := ErrSyntax | ErrRange.

(** A Go [error] returned by the parser; [None] is [nil]. *)
Definition error : Set := option NumError.

Definition byte (c : ascii) : Z := Z.of_N (N_of_ascii c).

Definition uint64 (z : Z) : Z := z mod 2 ^ 64.
Definition int64 (z : Z) : Z := (z + 2 ^ 63) mod 2 ^ 64 - 2 ^ 63.

Definition maxUint64 : Z := 2 ^ 64 - 1.

(** [lower(c)] is [c | ('x' - 'X')]. *)
Definition lower (c : Z) : Z := Z.lor c 32.

(** The value of one byte as a digit, before the comparison with the
    base: ['0'..'9'], then letters of either case, else nothing. *)
Definition digit_of (c : Z) : option Z :=
  if (48 <=? c) && (c <=? 57) then Some (c - 48)
  else if (97 <=? lower c) && (lower c <=? 122) then Some (lower c - 97 + 10)
  else None.

Section ParseUint.
Variables (base maxVal cutoff : Z).

(** The [for _, c := range []byte(s)] loop of [ParseUint]; it stops at
    the first byte that is no digit of the base, and at the first
    overflow (without looking at the bytes that follow). *)
Fixpoint ParseUint_loop (s : string) (n : Z) : Z * error :=
  match s with
  | EmptyString => (n, None)
  | String c s' =>
    match digit_of (byte c) with
    | None => (0, Some ErrSyntax)
    | Some d =>
      if base <=? d then (0, Some ErrSyntax)
      else if cutoff <=? n then (maxVal, Some ErrRange)
      else
        let n := uint64 (n * base) in
        let n1 := uint64 (n + d) in
        if (n1 <? n) || (maxVal <? n1) then (maxVal, Some ErrRange)
        else ParseUint_loop s' n1
    end
  end.
End ParseUint.

(** [ParseUint(s, 10, 64)]. *)
Definition ParseUint (s : string) : Z * error :=
  match s with
  | EmptyString => (0, Some ErrSyntax)
  | _ => ParseUint_loop 10 (2 ^ 64 - 1) (maxUint64 / 10 + 1) s 0
  end.

(** [ParseInt(s, 10, 64)]: an optional sign, then [ParseUint]; a value
    out of range comes back saturated, together with [ErrRange]. *)
Definition ParseInt (s : string) : Z * error :=
  match s with
  | EmptyString => (0, Some ErrSyntax)
  | String c0 s' =>
    let '(neg, s1) :=
      if Ascii.eqb c0 "+" then (false, s')
      else if Ascii.eqb c0 "-" then (true, s')
      else (false, s) in
    let '(un, err) := ParseUint s1 in
    match err with
    | Some ErrSyntax => (0, err)
    | _ =>
      let cutoff := 2 ^ 63 in
      if negb neg && (cutoff <=? un) then (int64 (cutoff - 1), Some ErrRange)
      else if neg && (cutoff <? un) then (int64 (- cutoff), Some ErrRange)
      else
        let n := int64 un in
        let n := if neg then int64 (- n) else n in
        (n, None)
    end
  end.

(** [FormatInt(i, 10)]: the decimal digits of [i], with a leading ["-"]
    when [i] is negative and no leading zero. *)
Definition FormatInt (i : Z) : string :=
  NilZero.string_of_int (Z.to_int i).

End strconv.

(** ** The wire records of [grafana-openapi-client-go/models] (the fields
    the resource reads or writes). *)

Module SetResourcePermissionCommand.
Record t : Set := Build {
  BuiltInRole : string;
  Permission : string;
  TeamID : Z;
  UserID : Z
}.

(** [models.SetResourcePermissionCommand{}]: Go's zero value. *)
Definition zero : t :=
  {| BuiltInRole := ""; Permission := ""; TeamID := 0; UserID := 0 |}.

Definition setBuiltInRole (v : string) (c : t) : t :=
  {| BuiltInRole := v; Permission := Permission c;
     TeamID := TeamID c; UserID := UserID c |}.
Definition setPermission (v : string) (c : t) : t :=
  {| BuiltInRole := BuiltInRole c; Permission := v;
     TeamID := TeamID c; UserID := UserID c |}.
Definition setTeamID (v : Z) (c : t) : t :=
  {| BuiltInRole := BuiltInRole c; Permission := Permission c;
     TeamID := v; UserID := UserID c |}.
Definition setUserID (v : Z) (c : t) : t :=
  {| BuiltInRole := BuiltInRole c; Permission := Permission c;
     TeamID := TeamID c; UserID := v |}.
End SetResourcePermissionCommand.

Module ResourcePermissionDTO.
Record t : Set := Build {
  BuiltInRole : string;
  IsInherited : bool;
  IsManaged : bool;
  Permission : string;
  TeamID : Z;
  UserID : Z
}.
End ResourcePermissionDTO.

Module Cmd := SetResourcePermissionCommand.
Module DTO := ResourcePermissionDTO.

(** One element of the ["permissions"] set of the schema: the
    [map[string]interface{}] with the four string attributes [role],
    [team_id], [user_id] and [permission]. *)
Record PermissionEntry : Set := mkEntry {
  role : string;
  team_id : string;
  user_id : string;
  permission : string
}.

Definition foldersPermissionsType : string := "folders".

(** ** Org-scoped resource identifiers *)

(** The text before and after the first [":"], when there is one. *)
Fixpoint cut_colon (s : string) : option (string * string) :=
  match s with
  | EmptyString => None
  | String c s' =>
    if Ascii.eqb c ":" then Some (EmptyString, s')
    else match cut_colon s' with
         | Some (a, b) => Some (String c a, b)
         | None => None
         end
  end.

(** Modelled from the spec: [MakeOrgResourceID] is defined outside
    [resource_folder_permission.go]. The spec's
    [encode(org_id, resource_uid)] is a reversible concatenation of both
    fields, ["1:abc123"] for org 1 and uid ["abc123"]. *)
Definition MakeOrgResourceID (orgID : Z) (resourceID : string) : string :=
  strconv.FormatInt orgID ++ ":" ++ resourceID.

(** Modelled from the spec: [SplitOrgResourceID] is defined outside
    [resource_folder_permission.go]. It returns the org and the rest of an
    identifier with an org-scope prefix (["1:5"] gives 1 and ["5"]); an
    identifier without one is returned whole, with org 0. As its callers
    show, it reports no error: the org is taken as [strconv.ParseInt]
    returns it. *)
Definition SplitOrgResourceID (id : string) : Z * string :=
  match cut_colon id with
  | Some (org, rest) => (fst (strconv.ParseInt org), rest)
  | None => (0, id)
  end.

(** Modelled from the spec: the [decode(token)] half of the identifier
    codec, which [OAPIClientFromExistingOrgResource] (defined outside
    [resource_folder_permission.go]) applies to [d.Id()]. A token without
    an org segment decodes to the default org, which is passed in. *)
Definition decodeOrgResourceID (defaultOrgID : Z) (id : string) : Z * string :=
  match cut_colon id with
  | Some (org, rest) => (fst (strconv.ParseInt org), rest)
  | None => (defaultOrgID, id)
  end.

(** ** Declared entries and grant commands *)

(** The body of the loop of [UpdateFolderPermissions] (lines 104-119):
    the command built for one declared entry. *)
Definition to_command (p : PermissionEntry) : Cmd.t :=
  let permissionItem := Cmd.zero in
  let permissionItem :=
    if negb (String.eqb (role p) "")
    then Cmd.setBuiltInRole (role p) permissionItem
    else permissionItem in
  let '(_, teamIDStr) := SplitOrgResourceID (team_id p) in
  let '(teamID, _) := strconv.ParseInt teamIDStr in
  let permissionItem :=
    if 0 <? teamID then Cmd.setTeamID teamID permissionItem
    else permissionItem in
  let '(_, userIDStr) := SplitOrgResourceID (user_id p) in
  let '(userID, _) := strconv.ParseInt userIDStr in
  let permissionItem :=
    if 0 <? userID then Cmd.setUserID userID permissionItem
    else permissionItem in
  Cmd.setPermission (permission p) permissionItem.

(** The loop itself: [permissionList] grows by one command per entry. *)
Definition buildPermissionList (entries : list PermissionEntry) : list Cmd.t :=
  fold_left (fun permissionList p =>
               (permissionList ++ [to_command p])%list) entries [].

(** The body of the loop of [ReadFolderPermissions] (lines 151-161):
    [None] stands for [continue]. *)
Definition to_entry (p : DTO.t) : option PermissionEntry :=
  if negb (DTO.IsManaged p) || DTO.IsInherited p then None
  else
    Some {| role := DTO.BuiltInRole p;
            team_id := strconv.FormatInt (DTO.TeamID p);
            user_id := strconv.FormatInt (DTO.UserID p);
            permission := DTO.Permission p |}.

Definition buildPermissionItems (folderPermissions : list DTO.t)
  : list PermissionEntry :=
  fold_left (fun permissionItems p =>
               match to_entry p with
               | None => permissionItems
               | Some permissionItem => (permissionItems ++ [permissionItem])%list
               end) folderPermissions [].

(** A command as the service reports it back: a grant made directly on
    the folder through this resource is managed and not inherited. *)
Definition managed_grant (c : Cmd.t) : DTO.t :=
  {| DTO.BuiltInRole := Cmd.BuiltInRole c;
     DTO.IsInherited := false;
     DTO.IsManaged := true;
     DTO.Permission := Cmd.Permission c;
     DTO.TeamID := Cmd.TeamID c;
     DTO.UserID := Cmd.UserID c |}.

(** [parsePermissionType]: the number of a permission name, -1 for any
    other string. *)
Definition parsePermissionType (permission : string) : Z :=
  let permissionInt := -1 in
  if String.eqb permission "View" then 1
  else if String.eqb permission "Edit" then 2
  else if String.eqb permission "Admin" then 4
  else permissionInt.

(** ** The hash of the ["permissions"] set *)

Module schema.
Section Set_.
Context {A : Type}.
(** The [SchemaSetFunc] of the set. *)
Variable F : A -> Z.

(** [Set.hash]: the code is made non-negative. *)
Definition hash (item : A) : Z :=
  let code := F item in if code <? 0 then - code else code.

(** [Set.add]: the items live in a map keyed by their code, and an
    item whose code is taken is not stored. *)
Definition add (m : gmap Z A) (item : A) : gmap Z A :=
  match m !! hash item with
  | Some _ => m
  | None => <[hash item := item]> m
  end.

(** [NewSet(F, items)]. *)
Definition NewSet (items : list A) : gmap Z A :=
  fold_left add items ∅.

(** [Set.Len]. *)
Definition Len (m : gmap Z A) : nat := size m.

(** The keys of the map are the codes as decimal text, [strconv.Itoa],
    and [Set.List] goes through them as [sort.Strings] orders them, byte
    by byte. *)
Definition code_leb (x y : Z * A) : bool :=
  String.leb (strconv.FormatInt (fst x)) (strconv.FormatInt (fst y)).

Fixpoint insert_by_code (x : Z * A) (l : list (Z * A)) : list (Z * A) :=
  match l with
  | [] => [x]
  | y :: l' => if code_leb x y then x :: l else y :: insert_by_code x l'
  end.

Definition sort_by_code (l : list (Z * A)) : list (Z * A) :=
  fold_right insert_by_code [] l.

(** [Set.List]: the items of the set, in the order of their codes. *)
Definition List (m : gmap Z A) : list A :=
  List.map snd (sort_by_code (map_to_list m)).

(** What [d.Set] stores when it is handed a list for a set attribute,
    and what [Set.List] then returns: the items are added one by one. *)
Definition ListOfItems (items : list A) : list A := List (NewSet items).
End Set_.

(** [hash/crc32] of the Go library, bit by bit: the IEEE polynomial,
    reflected. *)
Definition crc32_step (crc : Z) : Z :=
  if Z.testbit crc 0 then Z.lxor (Z.shiftr crc 1) 0xedb88320
  else Z.shiftr crc 1.

Definition crc32_byte (crc : Z) (b : ascii) : Z :=
  Nat.iter 8 crc32_step (Z.lxor crc (strconv.byte b)).

Fixpoint crc32_update (crc : Z) (s : string) : Z :=
  match s with
  | EmptyString => crc
  | String b s' => crc32_update (crc32_byte crc b) s'
  end.

Definition ChecksumIEEE (s : string) : Z :=
  Z.lxor (crc32_update 0xffffffff s) 0xffffffff.

(** [schema.HashString]: the checksum as an [int], which holds it as it
    is where [int] has 64 bits. *)
Definition HashString (s : string) : Z := ChecksumIEEE s.
End schema.

Section PermissionHash.
(** [schema.HashString], of the plugin SDK: some function of the string. *)
Variable HashString : string -> Z.

(** The [Set:] function of the ["permissions"] attribute (lines 50-55). *)
Definition permissionHash (m : PermissionEntry) : Z :=
  let '(_, teamID) := SplitOrgResourceID (team_id m) in
  let '(_, userID) := SplitOrgResourceID (user_id m) in
  HashString (role m ++ teamID ++ userID ++ permission m).
End PermissionHash.

(** ** The resource data and the Grafana client *)

(** [*schema.ResourceData]: the identifier and the attributes of the
    schema. The ["permissions"] set is kept as the list of its items
    that [Set.List] returns. *)
Record ResourceData : Set := mkData {
  Id : string;
  org_id : string;
  folder_uid : string;
  permissions : list PermissionEntry
}.

Definition withId (v : string) (d : ResourceData) : ResourceData :=
  {| Id := v; org_id := org_id d; folder_uid := folder_uid d;
     permissions := permissions d |}.
Definition withOrgID (v : string) (d : ResourceData) : ResourceData :=
  {| Id := Id d; org_id := v; folder_uid := folder_uid d;
     permissions := permissions d |}.
Definition withFolderUID (v : string) (d : ResourceData) : ResourceData :=
  {| Id := Id d; org_id := org_id d; folder_uid := v;
     permissions := permissions d |}.
Definition withPermissions (v : list PermissionEntry) (d : ResourceData)
  : ResourceData :=
  {| Id := Id d; org_id := org_id d; folder_uid := folder_uid d;
     permissions := v |}.

(** [d.GetOk("permissions")]: [ok] is false for the zero value, the
    empty set. *)
Definition GetOk_permissions (d : ResourceData)
  : list PermissionEntry * bool :=
  (permissions d, match permissions d with [] => false | _ => true end).

(** The calls that reach the Grafana API, as they go over the wire. *)
Inductive Call : Set :=
| CallGetFolderByUID (folderUID : string)
| CallGetResourcePermissions (resourceUID resourceType : string)
| CallSetResourcePermissions (resourceUID resourceType : string)
                             (permissions : list Cmd.t).

(** The calls that change grants. *)
Definition is_write (c : Call) : bool :=
  match c with
  | CallSetResourcePermissions _ _ _ => true
  | _ => false
  end.

(** The Grafana HTTP API client and the provider configuration ([meta]),
    which are not part of the resource: the server has a state of some
    type [World], each operation answers from it and may change it. With
    them comes the string hash of the plugin SDK, which the set of
    permissions uses. *)
Class GrafanaAPI : Type := {
  (** [schema.HashString] *)
  HashString : string -> Z;
  (** the errors of the client, and which of them mean "404 not found" *)
  apiError : Type;
  IsNotFound : apiError -> bool;
  World : Type;
  Client : Type;
  Meta : Type;
  (** the org the provider is configured with *)
  DefaultOrgID : Meta -> Z;
  (** the client of [meta], scoped to an org *)
  WithOrgID : Meta -> Z -> Client;
  (** the client and org of a resource that has no identifier yet
      (defined outside [resource_folder_permission.go]; any function) *)
  OAPIClientFromNewOrgResource : Meta -> ResourceData -> Client * Z;
  GetFolderByUID : Client -> string -> World -> option apiError * World;
  GetResourcePermissions :
    Client -> string -> string -> World -> (apiError + list DTO.t) * World;
  SetResourcePermissions :
    Client -> string -> string -> list Cmd.t -> World
    -> option apiError * World
}.

Module diag.
(** [diag.Diagnostics], as far as the resource fills it: the errors it
    reports; [nil] is success. *)
Definition Diagnostics (E : Type) : Type := list E.
Definition FromErr {E : Type} (err : E) : Diagnostics E := [err].
Definition HasError {E : Type} (diags : Diagnostics E) : bool :=
  match diags with [] => false | _ => true end.
End diag.

Section Reconciler.
Context `{API : GrafanaAPI}.

(** What a callback runs on: the resource data [d] it mutates, the
    server, and the log of the calls made so far. *)
Record St : Type := mkSt {
  data : ResourceData;
  world : World;
  calls : list Call
}.

Definition M (A : Type) : Type := St -> A * St.

#[export] Instance M_ret : MRet M := fun A a st => (a, st).
#[export] Instance M_bind : MBind M :=
  fun A B f m st => let '(a, st') := m st in f a st'.

Definition getData : M ResourceData := fun st => (data st, st).

Definition modifyData (f : ResourceData -> ResourceData) : M unit :=
  fun st => (tt, {| data := f (data st); world := world st;
                    calls := calls st |}).

(** [d.SetId(v)] and [d.Set(key, v)]. *)
Definition SetId (v : string) : M unit := modifyData (withId v).
Definition Set_org_id (v : string) : M unit := modifyData (withOrgID v).
Definition Set_folder_uid (v : string) : M unit :=
  modifyData (withFolderUID v).
(** [d.Set("permissions", v)]: the attribute is a set with the hash of
    the resource, so the items of [v] go through that set, where items
    with the same code are one and the order is that of the codes. *)
Definition Set_permissions (v : list PermissionEntry) : M unit :=
  modifyData (withPermissions
                (schema.ListOfItems (permissionHash HashString) v)).

(** One call to the server: it is logged, and the server moves on. *)
Definition request {A : Type} (c : Call) (op : World -> A * World) : M A :=
  fun st =>
    let '(a, w) := op (world st) in
    (a, {| data := data st; world := w; calls := (calls st ++ [c])%list |}).

(** Modelled from the spec: [OAPIClientFromExistingOrgResource] is
    defined outside [resource_folder_permission.go]. It decodes the stored
    identifier with the default org of the provider and returns the
    client scoped to the org found. *)
Definition OAPIClientFromExistingOrgResource (meta : Meta) (id : string)
  : Client * Z * string :=
  let '(orgID, restOfID) := decodeOrgResourceID (DefaultOrgID meta) id in
  (WithOrgID meta orgID, orgID, restOfID).

(** Modelled from the spec: [updateResourcePermissions] is defined
    outside [resource_folder_permission.go]. It submits the whole command
    list in one "set resource permissions" call for the resource type and
    uid, a total overwrite, and returns the error of that call. *)
Definition updateResourcePermissions (client : Client)
    (uid resourceType : string) (permissions : list Cmd.t)
  : M (option apiError) :=
  request (CallSetResourcePermissions uid resourceType permissions)
          (SetResourcePermissions client uid resourceType permissions).

(** Modelled from the spec: [common.CheckReadError] is defined outside
    [resource_folder_permission.go]. No error: go on. A not-found error
    is the spec's [ResourceGone]: no error is reported, the stored
    identifier is dropped, and the caller returns. Any other error is
    reported as it is, and the caller returns. *)
Definition CheckReadError (resourceType : string) (err : option apiError)
  : M (diag.Diagnostics apiError * bool) :=
  match err with
  | None => mret ([], false)
  | Some e =>
    if IsNotFound e then _ ← SetId ""; mret ([], true)
    else mret (diag.FromErr e, true)
  end.

Definition ReadFolderPermissions (meta : Meta)
  : M (diag.Diagnostics apiError) :=
  d ← getData;
  let '(client, orgID, folderUID) :=
    OAPIClientFromExistingOrgResource meta (Id d) in
  err ← request (CallGetFolderByUID folderUID)
                (GetFolderByUID client folderUID);
  '(diags, shouldReturn) ← CheckReadError "folder" err;
  if shouldReturn : bool then mret diags else
  resp ← request
    (CallGetResourcePermissions folderUID foldersPermissionsType)
    (GetResourcePermissions client folderUID foldersPermissionsType);
  let err := match resp with inl e => Some e | inr _ => None end in
  '(diags, shouldReturn) ← CheckReadError "folder permissions" err;
  if shouldReturn : bool then mret diags else
  let folderPermissions := match resp with inl _ => [] | inr l => l end in
  let permissionItems := buildPermissionItems folderPermissions in
  _ ← SetId (MakeOrgResourceID orgID folderUID);
  _ ← Set_org_id (strconv.FormatInt orgID);
  _ ← Set_folder_uid folderUID;
  _ ← Set_permissions permissionItems;
  mret [].

Definition UpdateFolderPermissions (meta : Meta)
  : M (diag.Diagnostics apiError) :=
  d ← getData;
  let '(client, orgID) := OAPIClientFromNewOrgResource meta d in
  let entries :=
    let '(v, ok) := GetOk_permissions d in
    if ok : bool then v else [] in
  let permissionList := buildPermissionList entries in
  let folderUID := folder_uid d in
  err ← updateResourcePermissions client folderUID foldersPermissionsType
                                  permissionList;
  match err with
  | Some err => mret (diag.FromErr err)
  | None =>
    _ ← SetId (MakeOrgResourceID orgID folderUID);
    ReadFolderPermissions meta
  end.

Definition DeleteFolderPermissions (meta : Meta)
  : M (diag.Diagnostics apiError) :=
  d ← getData;
  let '(client, _, folderUID) :=
    OAPIClientFromExistingOrgResource meta (Id d) in
  err ← updateResourcePermissions client folderUID foldersPermissionsType [];
  '(diags, _) ← CheckReadError "folder permissions" err;
  mret diags.

End Reconciler.

(** ** A Grafana with its folders in memory

    A small server to run the callbacks on: every folder has its list of
    grants, a folder that is not there answers "not found", and a
    read-only server refuses every write. Setting the permissions of a
    folder replaces its managed, direct grants by the commands. *)

Module mem.
Inductive error : Set := NotFound | Forbidden.

Record server : Type := mkServer {
  folders : gmap string (list DTO.t);
  read_only : bool
}.

Definition is_not_found (e : error) : bool :=
  match e with NotFound => true | Forbidden => false end.

Definition get_folder (uid : string) (w : server) : option error * server :=
  match folders w !! uid with
  | Some _ => (None, w)
  | None => (Some NotFound, w)
  end.

Definition get_permissions (uid : string) (w : server)
  : (error + list DTO.t) * server :=
  match folders w !! uid with
  | Some grants => (inr grants, w)
  | None => (inl NotFound, w)
  end.

Definition kept (g : DTO.t) : bool :=
  negb (DTO.IsManaged g) || DTO.IsInherited g.

Definition set_permissions (uid : string) (cmds : list Cmd.t) (w : server)
  : option error * server :=
  if read_only w then (Some Forbidden, w)
  else match folders w !! uid with
       | Some grants =>
         (None,
          {| folders :=
               <[uid := (List.filter kept grants
                         ++ List.map managed_grant cmds)%list]> (folders w);
             read_only := read_only w |})
       | None => (Some NotFound, w)
       end.

(** The org of a new resource: its ["org_id"] attribute, or the org of
    the provider when that is 0. *)
Definition new_org (defaultOrg : Z) (d : ResourceData) : Z :=
  let orgID := fst (strconv.ParseInt (org_id d)) in
  if orgID =? 0 then defaultOrg else orgID.

#[export] Instance api : GrafanaAPI := {|
  HashString := schema.HashString;
  apiError := error;
  IsNotFound := is_not_found;
  World := server;
  Client := Z;
  Meta := Z;
  DefaultOrgID := fun meta => meta;
  WithOrgID := fun _ orgID => orgID;
  OAPIClientFromNewOrgResource :=
    fun meta d => (new_org meta d, new_org meta d);
  GetFolderByUID := fun _ => get_folder;
  GetResourcePermissions := fun _ uid _ => get_permissions uid;
  SetResourcePermissions := fun _ uid _ => set_permissions uid
|}.

Definition state (d : ResourceData) (w : server) (log : list Call) : St :=
  {| data := d; world := w; calls := log |}.

Definition start (d : ResourceData) (w : server) : St := state d w [].
End mem.

(** ** Decimal numerals

    The value that the digits of a numeral add to a running total, as the
    parsing loop accumulates it. *)
Fixpoint uval (d : uint) (n : Z) : Z :=
  match d with
  | Nil => n
  | D0 l => uval l (n * 10 + 0)
  | D1 l => uval l (n * 10 + 1)
  | D2 l => uval l (n * 10 + 2)
  | D3 l => uval l (n * 10 + 3)
  | D4 l => uval l (n * 10 + 4)
  | D5 l => uval l (n * 10 + 5)
  | D6 l => uval l (n * 10 + 6)
  | D7 l => uval l (n * 10 + 7)
  | D8 l => uval l (n * 10 + 8)
  | D9 l => uval l (n * 10 + 9)
  end.

(** Whether a numeral is written with a minus sign. *)
Definition has_minus_sign (s : string) : bool :=
  match s with
  | String c _ => Ascii.eqb c "-"
  | EmptyString => false
  end.

(** The identifier of a team, user or service account with its org-scope
    prefix taken off, as the resource reads it. *)
Definition strip_org (id : string) : string := snd (SplitOrgResourceID id).

(** An entry whose team is a numeral one above the largest 64-bit
    integer. *)
Definition overflowing_entry : PermissionEntry :=
  {| role := ""; team_id := "9223372036854775808"; user_id := "0";
     permission := "View" |}.

(** The data of the scenarios: folder ["abc123"] of org 1. *)
Module scenario.
Definition editor_entry : PermissionEntry :=
  {| role := "Editor"; team_id := "0"; user_id := "0";
     permission := "Edit" |}.

Definition editor_command : Cmd.t :=
  {| Cmd.BuiltInRole := "Editor"; Cmd.Permission := "Edit";
     Cmd.TeamID := 0; Cmd.UserID := 0 |}.

Definition team5_grant : DTO.t :=
  {| DTO.BuiltInRole := ""; DTO.IsInherited := false;
     DTO.IsManaged := true; DTO.Permission := "View";
     DTO.TeamID := 5; DTO.UserID := 0 |}.

Definition team9_inherited_grant : DTO.t :=
  {| DTO.BuiltInRole := ""; DTO.IsInherited := true;
     DTO.IsManaged := true; DTO.Permission := "Admin";
     DTO.TeamID := 9; DTO.UserID := 0 |}.

Definition team5_entry : PermissionEntry :=
  {| role := ""; team_id := "5"; user_id := "0"; permission := "View" |}.

Definition team5_scoped_entry : PermissionEntry :=
  {| role := ""; team_id := "1:5"; user_id := "0"; permission := "View" |}.

(** The resource before its first apply, and once it is stored. *)
Definition declared (entries : list PermissionEntry) : ResourceData :=
  {| Id := ""; org_id := "1"; folder_uid := "abc123";
     permissions := entries |}.

Definition stored (entries : list PermissionEntry) : ResourceData :=
  {| Id := "1:abc123"; org_id := "1"; folder_uid := "abc123";
     permissions := entries |}.

(** Servers: with the folder and some grants, without it, and one
    that refuses writes. *)
Definition with_folder (grants : list DTO.t) : mem.server :=
  {| mem.folders := {[ "abc123" := grants ]}; mem.read_only := false |}.

Definition without_folder : mem.server :=
  {| mem.folders := ∅; mem.read_only := false |}.

Definition locked : mem.server :=
  {| mem.folders := {[ "abc123" := [] ]}; mem.read_only := true |}.

(** A length as a stand-in for [schema.HashString]. *)
Definition length_hash (s : string) : Z := Z.of_nat (String.length s).
End scenario.

(** The permission names the schema accepts (line 79). *)
Definition permissionNames : list string := ["View"; "Edit"; "Admin"].

(** A grant that reading keeps (line 152): managed, and not inherited. *)
Definition surfaced (g : DTO.t) : bool :=
  negb (negb (DTO.IsManaged g) || DTO.IsInherited g).

(** The entry that reading makes of a grant it keeps (lines 155-159). *)
Definition entry_of_grant (g : DTO.t) : PermissionEntry :=
  {| role := DTO.BuiltInRole g;
     team_id := strconv.FormatInt (DTO.TeamID g);
     user_id := strconv.FormatInt (DTO.UserID g);
     permission := DTO.Permission g |}.

(** Entries to run the hash on: team 12 with user 3, team 1 with
    user 23. *)
Module sample.
Definition team12_user3 : PermissionEntry :=
  {| role := ""; team_id := "12"; user_id := "3"; permission := "View" |}.

Definition team1_user23 : PermissionEntry :=
  {| role := ""; team_id := "1"; user_id := "23"; permission := "View" |}.


End sample.

(** ** A Grafana that answers as told

    A server for the cases the one in memory does not reach: each
    operation gives the answer it is set up with, whatever it is asked. *)
Module canned.
Record answers : Type := mkAnswers {
  folder : option mem.error;
  grants : mem.error + list DTO.t;
  set : option mem.error
}.

#[export] Instance api : GrafanaAPI := {|
  HashString := schema.HashString;
  apiError := mem.error;
  IsNotFound := mem.is_not_found;
  World := answers;
  Client := Z;
  Meta := Z;
  DefaultOrgID := fun meta => meta;
  WithOrgID := fun _ orgID => orgID;
  OAPIClientFromNewOrgResource :=
    fun meta d => (mem.new_org meta d, mem.new_org meta d);
  GetFolderByUID := fun _ _ w => (folder w, w);
  GetResourcePermissions := fun _ _ _ w => (grants w, w);
  SetResourcePermissions := fun _ _ _ _ w => (set w, w)
|}.

Definition state (d : ResourceData) (w : answers) (log : list Call) : St :=
  {| data := d; world := w; calls := log |}.

(** The folder lookup is refused. *)
Definition folder_refused : answers :=
  {| folder := Some mem.Forbidden; grants := inr []; set := None |}.

(** The folder is found, its grants are not. *)
Definition grants_gone : answers :=
  {| folder := None; grants := inl mem.NotFound; set := None |}.

(** Every call is answered; the folder has the two grants of scenario B. *)
Definition all_fine : answers :=
  {| folder := None;
     grants := inr [scenario.team5_grant; scenario.team9_inherited_grant];
     set := None |}.

(** Writes are refused. *)
Definition set_refused : answers :=
  {| folder := None; grants := inr []; set := Some mem.Forbidden |}.

End canned.

(** * Properties *)

(** ** [strconv] on some numerals *)

Example ex_ParseInt_5 : strconv.ParseInt "5" = (5, None).
Proof. reflexivity. Qed.
Example ex_ParseInt_plus : strconv.ParseInt "+17" = (17, None).
Proof. reflexivity. Qed.
Example ex_ParseInt_minus : strconv.ParseInt "-17" = (-17, None).
Proof. reflexivity. Qed.
Example ex_ParseInt_empty : strconv.ParseInt "" = (0, Some strconv.ErrSyntax).
Proof. reflexivity. Qed.
Example ex_ParseInt_sign_only : strconv.ParseInt "-" = (0, Some strconv.ErrSyntax).
Proof. reflexivity. Qed.
Example ex_ParseInt_letters : strconv.ParseInt "12a" = (0, Some strconv.ErrSyntax).
Proof. reflexivity. Qed.
Example ex_ParseInt_colon : strconv.ParseInt "1:5" = (0, Some strconv.ErrSyntax).
Proof. reflexivity. Qed.
Example ex_ParseInt_max :
  strconv.ParseInt "9223372036854775807" = (9223372036854775807, None).
Proof. vm_compute. reflexivity. Qed.
Example ex_ParseInt_min :
  strconv.ParseInt "-9223372036854775808" = (-9223372036854775808, None).
Proof. vm_compute. reflexivity. Qed.
Example ex_ParseInt_over :
  strconv.ParseInt "9223372036854775808"
  = (9223372036854775807, Some strconv.ErrRange).
Proof. vm_compute. reflexivity. Qed.
Example ex_ParseInt_under :
  strconv.ParseInt "-9223372036854775809"
  = (-9223372036854775808, Some strconv.ErrRange).
Proof. vm_compute. reflexivity. Qed.
Example ex_ParseInt_huge :
  strconv.ParseInt "99999999999999999999999"
  = (9223372036854775807, Some strconv.ErrRange).
Proof. vm_compute. reflexivity. Qed.
Example ex_FormatInt_0 : strconv.FormatInt 0 = "0".
Proof. reflexivity. Qed.
Example ex_FormatInt_42 : strconv.FormatInt 42 = "42".
Proof. reflexivity. Qed.
Example ex_FormatInt_neg : strconv.FormatInt (-7) = "-7".
Proof. reflexivity. Qed.

(** ** [strconv]: parsing what was formatted *)

Section Strconv_facts.
Import strconv.

Let loop := ParseUint_loop 10 (2 ^ 64 - 1) (maxUint64 / 10 + 1).

Lemma uval_ge (d : uint) : forall n, 0 <= n -> n <= uval d n.
Proof.
  induction d; intros n Hn; cbn [uval]; try lia;
    match goal with
    | |- _ <= uval _ ?m => specialize (IHd m); lia
    end.
Qed.

Lemma uint64_small (z : Z) : 0 <= z <= 2 ^ 64 - 1 -> uint64 z = z.
Proof. intros Hz. unfold uint64. apply Z.mod_small. lia. Qed.

Lemma int64_small (z : Z) : - 2 ^ 63 <= z < 2 ^ 63 -> int64 z = z.
Proof.
  intros Hz. unfold int64. rewrite Z.mod_small by lia. lia.
Qed.

Lemma loop_step (c : ascii) (s : string) (k n : Z) :
  digit_of (byte c) = Some k -> 0 <= k < 10 -> 0 <= n ->
  n * 10 + k <= 2 ^ 64 - 1 ->
  loop (String c s) n = loop s (n * 10 + k).
Proof.
  intros Hc Hk Hn Hle. unfold loop. cbn [ParseUint_loop]. rewrite Hc.
  replace (10 <=? k) with false by (symmetry; apply Z.leb_gt; lia).
  replace (maxUint64 / 10 + 1 <=? n) with false.
  2:{ symmetry. apply Z.leb_gt. unfold maxUint64.
      change (2 ^ 64 - 1) with 18446744073709551615 in *.
      change (18446744073709551615 / 10 + 1) with 1844674407370955162.
      lia. }
  cbv zeta.
  rewrite (uint64_small (n * 10)) by lia.
  rewrite (uint64_small (n * 10 + k)) by lia.
  replace (n * 10 + k <? n * 10) with false
    by (symmetry; apply Z.ltb_ge; lia).
  replace (2 ^ 64 - 1 <? n * 10 + k) with false
    by (symmetry; apply Z.ltb_ge; lia).
  reflexivity.
Qed.

Lemma loop_uval (d : uint) : forall n,
  0 <= n -> uval d n <= 2 ^ 64 - 1 ->
  loop (NilEmpty.string_of_uint d) n = (uval d n, None).
Proof.
  induction d; intros n Hn Hle; cbn [NilEmpty.string_of_uint uval] in *;
    [reflexivity | ..];
    match type of Hle with
    | uval _ (_ * 10 + ?k) <= _ =>
      pose proof (uval_ge d (n * 10 + k) ltac:(lia));
      rewrite (loop_step _ _ k n) by (reflexivity || lia);
      apply IHd; lia
    end.
Qed.

Lemma uval_of_lu (d : uint) : forall a,
  uval d (Z.of_N (Unsigned.of_lu a)) = Z.of_N (Unsigned.of_lu (revapp d a)).
Proof.
  induction d; intros a; cbn [uval revapp]; [reflexivity | ..];
    rewrite <- IHd; f_equal; cbn [Unsigned.of_lu]; lia.
Qed.

Lemma uval_to_uint (p : positive) : uval (Pos.to_uint p) 0 = Z.pos p.
Proof.
  change 0 with (Z.of_N (Unsigned.of_lu Nil)).
  rewrite uval_of_lu.
  change (revapp (Pos.to_uint p) Nil) with (Decimal.rev (Pos.to_uint p)).
  rewrite <- Unsigned.of_uint_alt, Unsigned.of_to. reflexivity.
Qed.

Lemma string_of_uint_head (d : uint) :
  d <> Nil ->
  exists c s, NilEmpty.string_of_uint d = String c s
              /\ Ascii.eqb c "+" = false /\ Ascii.eqb c "-" = false.
Proof.
  destruct d; intros Hd; [congruence | ..];
    cbn [NilEmpty.string_of_uint]; eexists _, _; repeat split.
Qed.

Lemma ParseUint_to_uint (p : positive) :
  Z.pos p <= 2 ^ 64 - 1 ->
  ParseUint (NilEmpty.string_of_uint (Pos.to_uint p)) = (Z.pos p, None).
Proof.
  intros Hp.
  destruct (string_of_uint_head (Pos.to_uint p) (Unsigned.to_uint_nonnil p))
    as (c & s & Hs & _).
  unfold ParseUint. rewrite Hs, <- Hs. fold loop.
  rewrite loop_uval; rewrite ?uval_to_uint; (reflexivity || lia).
Qed.

Lemma FormatInt_pos (p : positive) :
  FormatInt (Z.pos p) = NilEmpty.string_of_uint (Pos.to_uint p).
Proof.
  unfold FormatInt. cbn [Z.to_int NilZero.string_of_int].
  pose proof (Unsigned.to_uint_nonnil p) as Hd.
  destruct (Pos.to_uint p); [congruence | reflexivity ..].
Qed.

Lemma FormatInt_neg (p : positive) :
  FormatInt (Z.neg p) = String "-" (NilEmpty.string_of_uint (Pos.to_uint p)).
Proof.
  unfold FormatInt. cbn [Z.to_int NilZero.string_of_int].
  pose proof (Unsigned.to_uint_nonnil p) as Hd.
  destruct (Pos.to_uint p); [congruence | reflexivity ..].
Qed.

(** Parsing the decimal form of a 64-bit integer gives that integer,
    and no error. *)
Lemma ParseInt_FormatInt (i : Z) :
  - 2 ^ 63 <= i < 2 ^ 63 -> ParseInt (FormatInt i) = (i, None).
Proof.
  intros Hi. destruct i as [|p|p].
  - reflexivity.
  - rewrite FormatInt_pos.
    destruct (string_of_uint_head (Pos.to_uint p)
                (Unsigned.to_uint_nonnil p)) as (c & s & Hs & Hplus & Hminus).
    unfold ParseInt. rewrite Hs, Hplus, Hminus, <- Hs.
    rewrite ParseUint_to_uint by lia.
    replace (2 ^ 63 <=? Z.pos p) with false
      by (symmetry; apply Z.leb_gt; lia).
    cbn [negb andb]. rewrite int64_small by lia. reflexivity.
  - rewrite FormatInt_neg. unfold ParseInt.
    change (Ascii.eqb "-" "+") with false.
    change (Ascii.eqb "-" "-") with true. cbv iota beta.
    rewrite ParseUint_to_uint by lia.
    replace (2 ^ 63 <? Z.pos p) with false
      by (symmetry; apply Z.ltb_ge; lia).
    cbn [negb andb]. f_equal.
    destruct (Z.eq_dec (Z.pos p) (2 ^ 63)) as [He|Hne].
    + rewrite He. replace (Z.neg p) with (- 2 ^ 63) by lia. reflexivity.
    + rewrite (int64_small (Z.pos p)) by lia.
      rewrite int64_small by lia. reflexivity.
Qed.

(** The decimal form of an integer has no [":"]. *)
Lemma cut_colon_string_of_uint (d : uint) :
  cut_colon (NilEmpty.string_of_uint d) = None.
Proof.
  induction d; cbn [NilEmpty.string_of_uint cut_colon];
    [reflexivity | ..]; rewrite IHd; reflexivity.
Qed.

Lemma cut_colon_FormatInt (i : Z) : cut_colon (FormatInt i) = None.
Proof.
  destruct i as [|p|p].
  - reflexivity.
  - rewrite FormatInt_pos. apply cut_colon_string_of_uint.
  - rewrite FormatInt_neg. cbn [cut_colon].
    rewrite cut_colon_string_of_uint. reflexivity.
Qed.

Lemma cut_colon_app (s r : string) :
  cut_colon s = None -> cut_colon (s ++ String ":" r) = Some (s, r).
Proof.
  induction s as [|c s IH]; intros Hs.
  - reflexivity.
  - change (String c s ++ String ":" r)
      with (String c (s ++ String ":" r)).
    cbn [cut_colon] in *.
    destruct (Ascii.eqb c ":"); [discriminate |].
    destruct (cut_colon s) as [[a b]|]; [discriminate |].
    rewrite IH by reflexivity. reflexivity.
Qed.

End Strconv_facts.

(** ** Declared entries and grant commands *)

Example ex_parsePermissionType :
  List.map parsePermissionType ["View"; "Edit"; "Admin"; "Viewer"; ""]
  = [1; 2; 4; -1; -1].
Proof. reflexivity. Qed.

Lemma buildPermissionList_map (entries : list PermissionEntry) :
  buildPermissionList entries = List.map to_command entries.
Proof.
  unfold buildPermissionList.
  enough (forall acc,
    fold_left (fun permissionList p =>
                 (permissionList ++ [to_command p])%list) entries acc
    = (acc ++ List.map to_command entries)%list) as Hacc by apply Hacc.
  induction entries as [|e entries IH]; intros acc; cbn [fold_left List.map].
  - symmetry. apply app_nil_r.
  - rewrite IH, <- app_assoc. reflexivity.
Qed.

Lemma buildPermissionItems_omap (grants : list DTO.t) :
  buildPermissionItems grants = omap to_entry grants.
Proof.
  unfold buildPermissionItems.
  enough (forall acc,
    fold_left (fun permissionItems p =>
                 match to_entry p with
                 | None => permissionItems
                 | Some permissionItem =>
                   (permissionItems ++ [permissionItem])%list
                 end) grants acc
    = (acc ++ omap to_entry grants)%list) as Hacc by apply Hacc.
  induction grants as [|g grants IH]; intros acc; cbn [fold_left omap list_omap].
  - symmetry. apply app_nil_r.
  - rewrite IH. destruct (to_entry g); [rewrite <- app_assoc |]; reflexivity.
Qed.

(** The fields of the command of one entry, read off the code. *)
Lemma to_command_fields (e : PermissionEntry) :
  let teamID := fst (strconv.ParseInt (snd (SplitOrgResourceID (team_id e)))) in
  let userID := fst (strconv.ParseInt (snd (SplitOrgResourceID (user_id e)))) in
  to_command e =
  {| Cmd.BuiltInRole := role e;
     Cmd.Permission := permission e;
     Cmd.TeamID := if 0 <? teamID then teamID else 0;
     Cmd.UserID := if 0 <? userID then userID else 0 |}.
Proof.
  unfold to_command.
  destruct (SplitOrgResourceID (team_id e)) as [o1 teamIDStr].
  destruct (SplitOrgResourceID (user_id e)) as [o2 userIDStr].
  cbn [snd].
  destruct (strconv.ParseInt teamIDStr) as [teamID err1].
  destruct (strconv.ParseInt userIDStr) as [userID err2].
  cbn [fst].
  destruct (String.eqb_spec (role e) "") as [Hr|Hr];
    destruct (0 <? teamID); destruct (0 <? userID);
    cbn; rewrite ?Hr; reflexivity.
Qed.

(** The loop of create/update, on any list of entries. For every entry,
    at its place in the list, the command list that the loop builds has
    one command: its [BuiltInRole] is
    the entry's role when that is not empty (and stays empty otherwise),
    its [TeamID] and [UserID] are the integers parsed from the entry's
    [team_id] and [user_id] after the org prefix is stripped when they
    are greater than zero (and stay 0 otherwise), and its [Permission] is
    the entry's permission. The set with the one entry
    [{role: "Editor", team_id: "0", user_id: "0", permission: "Edit"}]
    gives exactly the command [{"Editor", 0, 0, "Edit"}]. *)
Theorem apply_builds_commands :
  (forall (entries : list PermissionEntry) (i : nat) (e : PermissionEntry),
     entries !! i = Some e ->
     length (buildPermissionList entries) = length entries /\
     exists c, buildPermissionList entries !! i = Some c /\
       (role e <> "" -> Cmd.BuiltInRole c = role e) /\
       (role e = "" -> Cmd.BuiltInRole c = "") /\
       (let teamID :=
          fst (strconv.ParseInt (snd (SplitOrgResourceID (team_id e)))) in
        (0 < teamID -> Cmd.TeamID c = teamID) /\
        (teamID <= 0 -> Cmd.TeamID c = 0)) /\
       (let userID :=
          fst (strconv.ParseInt (snd (SplitOrgResourceID (user_id e)))) in
        (0 < userID -> Cmd.UserID c = userID) /\
        (userID <= 0 -> Cmd.UserID c = 0)) /\
       Cmd.Permission c = permission e) /\
  buildPermissionList [scenario.editor_entry] = [scenario.editor_command].
Proof.
  split; [| reflexivity].
  intros entries i e Hi. rewrite buildPermissionList_map.
  split; [apply length_map |].
  exists (to_command e). split.
  - rewrite list_lookup_fmap_Some. exists e. split; [reflexivity | exact Hi].
  - rewrite to_command_fields. cbn [Cmd.BuiltInRole Cmd.TeamID Cmd.UserID
                                   Cmd.Permission].
    repeat split; try congruence; intros Hc.
    + apply Z.ltb_lt in Hc. rewrite Hc. reflexivity.
    + apply Z.ltb_ge in Hc. rewrite Hc. reflexivity.
    + apply Z.ltb_lt in Hc. rewrite Hc. reflexivity.
    + apply Z.ltb_ge in Hc. rewrite Hc. reflexivity.
Qed.

Lemma apply_builds_commands_witness :
  exists c,
    buildPermissionList
      [ {| role := ""; team_id := "1:5"; user_id := "-3";
           permission := "View" |};
        {| role := "Viewer"; team_id := "x"; user_id := "7";
           permission := "Admin" |} ] !! 1%nat = Some c
    /\ Cmd.BuiltInRole c = "Viewer" /\ Cmd.TeamID c = 0 /\ Cmd.UserID c = 7
    /\ Cmd.Permission c = "Admin".
Proof.
  destruct (proj1 apply_builds_commands
              [ {| role := ""; team_id := "1:5"; user_id := "-3";
                   permission := "View" |};
                {| role := "Viewer"; team_id := "x"; user_id := "7";
                   permission := "Admin" |} ] 1%nat
              {| role := "Viewer"; team_id := "x"; user_id := "7";
                 permission := "Admin" |} eq_refl)
    as (_ & c & Hc & Hrole & _ & (_ & Hteam) & (Huser & _) & Hperm).
  exists c. split; [exact Hc |].
  split; [apply Hrole; discriminate |].
  split; [apply Hteam; vm_compute; discriminate |].
  split; [apply Huser; reflexivity | exact Hperm].
Defined.

(** The loop of reading, on any list of grants. It makes no entry of a
    grant that is not managed or that is inherited, whatever its other
    fields; every other grant gives, in its place, exactly one entry: the role is [BuiltInRole], [team_id]
    and [user_id] are the decimal forms of the integers (["0"] when
    unset), and the permission is copied. The grants of scenario B, a
    managed direct grant to team 5 and a managed inherited grant to
    team 9, give the single entry
    [{team_id: "5", user_id: "0", permission: "View", role: ""}]. *)
Theorem read_surfaces_managed_grants :
  (forall grants : list DTO.t,
     buildPermissionItems grants =
     flat_map (fun g =>
                 if negb (DTO.IsManaged g) || DTO.IsInherited g then []
                 else [ {| role := DTO.BuiltInRole g;
                           team_id := strconv.FormatInt (DTO.TeamID g);
                           user_id := strconv.FormatInt (DTO.UserID g);
                           permission := DTO.Permission g |} ]) grants) /\
  (forall role perm team user managed,
     to_entry (DTO.Build role true managed perm team user) = None) /\
  (forall role perm team user inherited,
     to_entry (DTO.Build role inherited false perm team user) = None) /\
  buildPermissionItems [scenario.team5_grant; scenario.team9_inherited_grant]
  = [scenario.team5_entry].
Proof.
  split; [| split; [| split]].
  - intros grants. rewrite buildPermissionItems_omap.
    induction grants as [|g grants IH]; [reflexivity |].
    cbn [omap list_omap flat_map]. fold (omap to_entry grants).
    rewrite <- IH. unfold to_entry.
    destruct (negb (DTO.IsManaged g) || DTO.IsInherited g); reflexivity.
  - intros. unfold to_entry. cbn. rewrite orb_true_r. reflexivity.
  - intros. reflexivity.
  - reflexivity.
Qed.

(** C3. An entry whose [team_id] and [user_id] denote integers that are
    zero or positive comes back from the command it is turned into, once
    that command is read as a managed, direct grant: with the role and
    permission it had and the two identifiers in decimal form. When the
    identifiers are already in decimal form, what comes back is the entry
    itself. *)
Theorem to_entry_to_command :
  (forall (e : PermissionEntry) (teamID userID : Z),
     strconv.ParseInt (strip_org (team_id e)) = (teamID, None) ->
     strconv.ParseInt (strip_org (user_id e)) = (userID, None) ->
     0 <= teamID -> 0 <= userID ->
     to_entry (managed_grant (to_command e))
     = Some {| role := role e;
               team_id := strconv.FormatInt teamID;
               user_id := strconv.FormatInt userID;
               permission := permission e |}) /\
  (forall (r p : string) (teamID userID : Z),
     0 <= teamID < 2 ^ 63 -> 0 <= userID < 2 ^ 63 ->
     let e := {| role := r; team_id := strconv.FormatInt teamID;
                 user_id := strconv.FormatInt userID; permission := p |} in
     to_entry (managed_grant (to_command e)) = Some e).
Proof.
  assert (Hgen : forall (e : PermissionEntry) (teamID userID : Z),
     strconv.ParseInt (strip_org (team_id e)) = (teamID, None) ->
     strconv.ParseInt (strip_org (user_id e)) = (userID, None) ->
     0 <= teamID -> 0 <= userID ->
     to_entry (managed_grant (to_command e))
     = Some {| role := role e;
               team_id := strconv.FormatInt teamID;
               user_id := strconv.FormatInt userID;
               permission := permission e |}).
  { intros e teamID userID Ht Hu Hteam Huser. unfold strip_org in *.
    rewrite to_command_fields. rewrite Ht, Hu. cbn [fst].
    unfold to_entry, managed_grant. cbn.
    replace (if 0 <? teamID then teamID else 0) with teamID
      by (destruct (Z.ltb_spec 0 teamID); lia).
    replace (if 0 <? userID then userID else 0) with userID
      by (destruct (Z.ltb_spec 0 userID); lia).
    reflexivity. }
  split; [exact Hgen |].
  intros r p teamID userID Hteam Huser e.
  apply (Hgen e teamID userID); try lia; unfold strip_org, SplitOrgResourceID;
    cbn [team_id user_id e]; rewrite cut_colon_FormatInt; cbn [snd];
    apply ParseInt_FormatInt; lia.
Qed.

Lemma to_entry_to_command_witness :
  to_entry (managed_grant (to_command
    {| role := "Editor"; team_id := "1:05"; user_id := "0";
       permission := "Edit" |}))
  = Some {| role := "Editor"; team_id := "5"; user_id := "0";
            permission := "Edit" |}
  /\ to_entry (managed_grant (to_command
    {| role := ""; team_id := "42"; user_id := "7"; permission := "View" |}))
  = Some {| role := ""; team_id := "42"; user_id := "7";
            permission := "View" |}.
Proof.
  split.
  - apply (proj1 to_entry_to_command
             {| role := "Editor"; team_id := "1:05"; user_id := "0";
                permission := "Edit" |} 5 0); (reflexivity || lia).
  - apply (proj2 to_entry_to_command "" "View" 42 7); lia.
Defined.

(** What [ParseInt] returns next to an error: 0 with a syntax error, the
    bound on the side of the sign with a range error. *)
Lemma ParseInt_error (s : string) (n : Z) (err : strconv.NumError) :
  strconv.ParseInt s = (n, Some err) ->
  match err with
  | strconv.ErrSyntax => n = 0
  | strconv.ErrRange =>
    n = if has_minus_sign s then - 2 ^ 63 else 2 ^ 63 - 1
  end.
Proof.
  unfold strconv.ParseInt, has_minus_sign.
  destruct s as [|c0 s']; [intros [= <- <-]; reflexivity |].
  destruct (Ascii.eqb_spec c0 "+") as [->|Hplus].
  - change (Ascii.eqb "+" "-") with false.
    destruct (strconv.ParseUint s') as [un [[]|]]; cbn [negb andb];
      try (intros [= <- <-]; reflexivity);
      destruct (2 ^ 63 <=? un); intros [= <- <-]; reflexivity.
  - destruct (Ascii.eqb c0 "-").
    + destruct (strconv.ParseUint s') as [un [[]|]]; cbn [negb andb];
        try (intros [= <- <-]; reflexivity);
        destruct (2 ^ 63 <? un); intros [= <- <-]; reflexivity.
    + destruct (strconv.ParseUint (String c0 s')) as [un [[]|]];
        cbn [negb andb]; try (intros [= <- <-]; reflexivity);
        destruct (2 ^ 63 <=? un); intros [= <- <-]; reflexivity.
Qed.

(** The claim that a failed parse always leaves the field at 0 does not
    hold: a numeral above the 64-bit range is parsed as the largest
    integer, which is positive and is written to the command. *)
Lemma to_command_range_error_counterexample :
  snd (strconv.ParseInt (strip_org (team_id overflowing_entry)))
  = Some strconv.ErrRange
  /\ fst (strconv.ParseInt (strip_org (team_id overflowing_entry)))
     = 9223372036854775807
  /\ Cmd.TeamID (to_command overflowing_entry) = 9223372036854775807
  /\ ~ (fst (strconv.ParseInt (strip_org (team_id overflowing_entry))) = 0
        /\ Cmd.TeamID (to_command overflowing_entry) = 0).
Proof.
  vm_compute. repeat split; intros [H _]; discriminate H.
Qed.

(** C10 (amended). The conversion of an entry to a command never fails,
    whatever strings the entry holds, and both integer fields of the
    command are between 0 and the largest 64-bit integer. When the
    [team_id] or [user_id] (after the org prefix is stripped) does not
    parse, the error is dropped: after a syntax error the field stays 0;
    after a range error the parsed value is the bound of the 64-bit
    range, so that the field stays 0 for a numeral with a minus sign and
    is set to [2^63 - 1] for any other. *)
Theorem to_command_parse_errors (e : PermissionEntry) :
  (0 <= Cmd.TeamID (to_command e) <= 2 ^ 63 - 1) /\
  (0 <= Cmd.UserID (to_command e) <= 2 ^ 63 - 1) /\
  (forall err,
     snd (strconv.ParseInt (strip_org (team_id e))) = Some err ->
     Cmd.TeamID (to_command e) =
     match err with
     | strconv.ErrSyntax => 0
     | strconv.ErrRange =>
       if has_minus_sign (strip_org (team_id e)) then 0 else 2 ^ 63 - 1
     end) /\
  (forall err,
     snd (strconv.ParseInt (strip_org (user_id e))) = Some err ->
     Cmd.UserID (to_command e) =
     match err with
     | strconv.ErrSyntax => 0
     | strconv.ErrRange =>
       if has_minus_sign (strip_org (user_id e)) then 0 else 2 ^ 63 - 1
     end).
Proof.
  rewrite to_command_fields. cbn [Cmd.TeamID Cmd.UserID].
  fold (strip_org (team_id e)). fold (strip_org (user_id e)).
  assert (Hval : forall s,
    (0 <= (if 0 <? fst (strconv.ParseInt s)
           then fst (strconv.ParseInt s) else 0) <= 2 ^ 63 - 1) /\
    (forall err, snd (strconv.ParseInt s) = Some err ->
       (if 0 <? fst (strconv.ParseInt s) then fst (strconv.ParseInt s) else 0)
       = match err with
         | strconv.ErrSyntax => 0
         | strconv.ErrRange => if has_minus_sign s then 0 else 2 ^ 63 - 1
         end)).
  { intros s. destruct (strconv.ParseInt s) as [n [err|]] eqn:Hs; cbn [fst snd].
    - pose proof (ParseInt_error s n err Hs) as Hn.
      assert (Hcase : (if 0 <? n then n else 0)
        = match err with
          | strconv.ErrSyntax => 0
          | strconv.ErrRange => if has_minus_sign s then 0 else 2 ^ 63 - 1
          end).
      { destruct err; [subst n; reflexivity |].
        destruct (has_minus_sign s); subst n; reflexivity. }
      split.
      + rewrite Hcase. destruct err; [lia |].
        destruct (has_minus_sign s); lia.
      + intros err' [= <-]. exact Hcase.
    - split; [| discriminate].
      assert (- 2 ^ 63 <= n < 2 ^ 63) as Hrange;
        [| destruct (Z.ltb_spec 0 n); lia].
      revert Hs. unfold strconv.ParseInt.
      destruct s as [|c0 s']; [discriminate |].
      destruct (if Ascii.eqb c0 "+" then (false, s')
                else if Ascii.eqb c0 "-" then (true, s')
                else (false, String c0 s')) as [neg s1].
      destruct (strconv.ParseUint s1) as [un [[]|]]; try discriminate;
        (destruct (negb neg && (2 ^ 63 <=? un)); [discriminate |]);
        (destruct (neg && (2 ^ 63 <? un)); [discriminate |]);
        intros [= <-]; unfold strconv.int64;
        destruct neg;
        match goal with
        | |- _ <= ?a mod ?b - _ < _ =>
          pose proof (Z.mod_pos_bound a b ltac:(lia)); lia
        end. }
  destruct (Hval (strip_org (team_id e))) as [Ht1 Ht2].
  destruct (Hval (strip_org (user_id e))) as [Hu1 Hu2].
  repeat split; (lia || assumption).
Qed.

Lemma to_command_parse_errors_witness :
  Cmd.TeamID (to_command
    {| role := "Viewer"; team_id := "2:team-a";
       user_id := "-99999999999999999999"; permission := "View" |}) = 0
  /\ Cmd.UserID (to_command
    {| role := "Viewer"; team_id := "2:team-a";
       user_id := "-99999999999999999999"; permission := "View" |}) = 0.
Proof.
  pose proof (to_command_parse_errors
    {| role := "Viewer"; team_id := "2:team-a";
       user_id := "-99999999999999999999"; permission := "View" |})
    as (_ & _ & Hteam & Huser).
  split.
  - exact (Hteam strconv.ErrSyntax eq_refl).
  - exact (Huser strconv.ErrRange eq_refl).
Defined.

(** ** The identifier codec *)

Lemma decode_encode (defaultOrgID orgID : Z) (resourceUID : string) :
  - 2 ^ 63 <= orgID < 2 ^ 63 ->
  decodeOrgResourceID defaultOrgID (MakeOrgResourceID orgID resourceUID)
  = (orgID, resourceUID).
Proof.
  intros Horg. unfold decodeOrgResourceID, MakeOrgResourceID.
  change (":" ++ resourceUID) with (String ":" resourceUID).
  rewrite cut_colon_app by apply cut_colon_FormatInt.
  rewrite ParseInt_FormatInt by exact Horg. reflexivity.
Qed.

(** C5. Decoding the identifier made of an org that is zero or positive
    and a non-empty uid gives back that org and that uid, whatever the
    default org is; so two identifiers are equal only when they are made
    of the same org and uid. An identifier without an org segment decodes
    to the default org and the whole identifier as uid. *)
Theorem decode_encode_identity (defaultOrgID : Z) :
  (forall (orgID : Z) (resourceUID : string),
     0 <= orgID < 2 ^ 63 -> resourceUID <> "" ->
     decodeOrgResourceID defaultOrgID (MakeOrgResourceID orgID resourceUID)
     = (orgID, resourceUID)) /\
  (forall (org1 org2 : Z) (uid1 uid2 : string),
     0 <= org1 < 2 ^ 63 -> 0 <= org2 < 2 ^ 63 ->
     MakeOrgResourceID org1 uid1 = MakeOrgResourceID org2 uid2 ->
     org1 = org2 /\ uid1 = uid2) /\
  (forall token : string,
     cut_colon token = None ->
     decodeOrgResourceID defaultOrgID token = (defaultOrgID, token)).
Proof.
  split; [| split].
  - intros orgID resourceUID Horg _. apply decode_encode. lia.
  - intros org1 org2 uid1 uid2 H1 H2 Heq.
    pose proof (decode_encode defaultOrgID org1 uid1 ltac:(lia)) as Hd1.
    pose proof (decode_encode defaultOrgID org2 uid2 ltac:(lia)) as Hd2.
    rewrite Heq, Hd2 in Hd1. injection Hd1 as -> ->. split; reflexivity.
  - intros token Htoken. unfold decodeOrgResourceID. rewrite Htoken.
    reflexivity.
Qed.

Lemma decode_encode_identity_witness :
  MakeOrgResourceID 1 "abc123" = "1:abc123"
  /\ decodeOrgResourceID 7 "1:abc123" = (1, "abc123")
  /\ decodeOrgResourceID 7 "abc123" = (7, "abc123").
Proof.
  split; [reflexivity |]. split.
  - apply (proj1 (decode_encode_identity 7) 1 "abc123"); [lia | discriminate].
  - apply (proj2 (proj2 (decode_encode_identity 7)) "abc123"). reflexivity.
Defined.

(** ** The hash of the declared set *)

Section Set_facts.
Context {A : Type} (F : A -> Z).

Lemma NewSet_collapse (a b : A) :
  F a = F b -> schema.Len (schema.NewSet F [a; b]) = 1%nat.
Proof.
  intros Hab. unfold schema.Len, schema.NewSet. cbn [fold_left].
  unfold schema.add at 2. rewrite lookup_empty.
  unfold schema.add.
  replace (schema.hash F b) with (schema.hash F a)
    by (unfold schema.hash; rewrite Hab; reflexivity).
  rewrite lookup_insert_eq. rewrite insert_empty. apply map_size_singleton.
Qed.
End Set_facts.

(** The items a set lists, and the set made of a list of items. *)
Section Set_List_facts.
Context {A : Type} (F : A -> Z).

Lemma insert_by_code_Permutation (x : Z * A) (l : list (Z * A)) :
  schema.insert_by_code x l ≡ₚ x :: l.
Proof.
  induction l as [|y l IH]; cbn [schema.insert_by_code]; [reflexivity |].
  destruct (schema.code_leb x y); [reflexivity |].
  rewrite IH. apply Permutation_swap.
Qed.

Lemma sort_by_code_Permutation (l : list (Z * A)) :
  schema.sort_by_code l ≡ₚ l.
Proof.
  induction l as [|x l IH]; [reflexivity |].
  cbn [schema.sort_by_code fold_right]. fold (schema.sort_by_code l).
  rewrite insert_by_code_Permutation, IH. reflexivity.
Qed.

Lemma List_Permutation (m : gmap Z A) :
  schema.List m ≡ₚ (map_to_list m).*2.
Proof.
  unfold schema.List. apply fmap_Permutation, sort_by_code_Permutation.
Qed.

Lemma In_List (m : gmap Z A) (v : A) :
  List.In v (schema.List m) <-> exists k, m !! k = Some v.
Proof.
  rewrite <- list_elem_of_In, List_Permutation, list_elem_of_fmap. split.
  - intros ([k v'] & -> & Hkv). exists k.
    apply elem_of_map_to_list in Hkv. exact Hkv.
  - intros (k & Hk). exists (k, v). split; [reflexivity |].
    apply elem_of_map_to_list. exact Hk.
Qed.

Lemma length_List (m : gmap Z A) : length (schema.List m) = size m.
Proof.
  rewrite (Permutation_length (List_Permutation m)), length_fmap.
  apply length_map_to_list.
Qed.

Lemma add_keeps (m : gmap Z A) (x : A) (k : Z) (v : A) :
  m !! k = Some v -> schema.add F m x !! k = Some v.
Proof.
  intros Hk. unfold schema.add.
  destruct (m !! schema.hash F x) eqn:Hx; [exact Hk |].
  rewrite lookup_insert_ne; [exact Hk | congruence].
Qed.

Lemma add_lookup (m : gmap Z A) (x : A) (k : Z) (v : A) :
  schema.add F m x !! k = Some v ->
  m !! k = Some v \/ (k = schema.hash F x /\ v = x /\ m !! k = None).
Proof.
  unfold schema.add. destruct (m !! schema.hash F x) eqn:Hx; [auto |].
  destruct (decide (schema.hash F x = k)) as [<-|Hne].
  - rewrite lookup_insert_eq. intros [= <-]. auto.
  - rewrite lookup_insert_ne by exact Hne. auto.
Qed.

Lemma add_has (m : gmap Z A) (x : A) :
  is_Some (schema.add F m x !! schema.hash F x).
Proof.
  unfold schema.add. destruct (m !! schema.hash F x) eqn:Hx.
  - rewrite Hx. eauto.
  - rewrite lookup_insert_eq. eauto.
Qed.

Lemma fold_add_keeps (items : list A) :
  forall (m : gmap Z A) (k : Z) (v : A),
    m !! k = Some v -> fold_left (schema.add F) items m !! k = Some v.
Proof.
  induction items as [|x items IH]; intros m k v Hk; [exact Hk |].
  cbn [fold_left]. apply IH, add_keeps, Hk.
Qed.

Lemma fold_add_lookup (items : list A) :
  forall (m : gmap Z A) (k : Z) (v : A),
    fold_left (schema.add F) items m !! k = Some v ->
    m !! k = Some v \/ (List.In v items /\ schema.hash F v = k).
Proof.
  induction items as [|x items IH]; intros m k v Hk; [auto |].
  cbn [fold_left] in Hk. destruct (IH _ _ _ Hk) as [Hadd|[Hin Hh]].
  - destruct (add_lookup _ _ _ _ Hadd) as [Hm|(-> & -> & _)]; [auto |].
    right. split; [left; reflexivity | reflexivity].
  - right. split; [right; exact Hin | exact Hh].
Qed.

Lemma fold_add_has (items : list A) :
  forall (m : gmap Z A) (x : A),
    List.In x items ->
    is_Some (fold_left (schema.add F) items m !! schema.hash F x).
Proof.
  induction items as [|y items IH]; intros m x Hx; [destruct Hx |].
  cbn [fold_left]. destruct Hx as [->|Hx]; [| apply IH, Hx].
  destruct (add_has m x) as [v Hv]. exists v. apply fold_add_keeps, Hv.
Qed.

Lemma fold_add_size (items : list A) :
  forall m : gmap Z A,
    (size (fold_left (schema.add F) items m) <= size m + length items)%nat.
Proof.
  induction items as [|x items IH]; intros m; cbn [fold_left length]; [lia |].
  etransitivity; [apply IH |].
  unfold schema.add. destruct (m !! schema.hash F x) eqn:Hx; [lia |].
  rewrite map_size_insert_None by exact Hx. lia.
Qed.


(** Every item listed was handed in. *)
Lemma In_ListOfItems (items : list A) (v : A) :
  List.In v (schema.ListOfItems F items) -> List.In v items.
Proof.
  unfold schema.ListOfItems, schema.NewSet. rewrite In_List.
  intros (k & Hk). destruct (fold_add_lookup _ _ _ _ Hk) as [He|[Hin _]].
  - rewrite lookup_empty in He. discriminate.
  - exact Hin.
Qed.

(** Every item handed in is listed, or an item with its code is. *)
Lemma ListOfItems_has (items : list A) (x : A) :
  List.In x items ->
  exists v, List.In v (schema.ListOfItems F items)
            /\ schema.hash F v = schema.hash F x.
Proof.
  intros Hx. unfold schema.ListOfItems, schema.NewSet.
  destruct (fold_add_has items ∅ x Hx) as [v Hv]. exists v. split.
  - apply In_List. eauto.
  - destruct (fold_add_lookup _ _ _ _ Hv) as [He|[_ Hh]]; [| exact Hh].
    rewrite lookup_empty in He. discriminate.
Qed.

Lemma ListOfItems_length (items : list A) :
  length (schema.ListOfItems F items) = schema.Len (schema.NewSet F items).
Proof. apply length_List. Qed.

Lemma ListOfItems_length_le (items : list A) :
  (length (schema.ListOfItems F items) <= length items)%nat.
Proof.
  rewrite ListOfItems_length. unfold schema.Len, schema.NewSet.
  etransitivity; [apply fold_add_size |]. rewrite map_size_empty. lia.
Qed.


Lemma ListOfItems_nil : schema.ListOfItems F [] = [].
Proof.
  unfold schema.ListOfItems, schema.NewSet, schema.List. cbn [fold_left].
  rewrite map_to_list_empty. reflexivity.
Qed.

Lemma ListOfItems_singleton (x : A) : schema.ListOfItems F [x] = [x].
Proof.
  unfold schema.ListOfItems, schema.NewSet, schema.List. cbn [fold_left].
  unfold schema.add. rewrite lookup_empty, insert_empty, map_to_list_singleton.
  reflexivity.
Qed.

End Set_List_facts.

(** The entries that reading makes of the grants it keeps. *)
Lemma omap_to_entry (grants : list DTO.t) :
  omap to_entry grants = List.map entry_of_grant (List.filter surfaced grants).
Proof.
  induction grants as [|g grants IH]; [reflexivity |].
  cbn [omap list_omap List.filter]. fold (omap to_entry grants).
  unfold to_entry at 1, surfaced at 1, entry_of_grant at 1.
  destruct (negb (DTO.IsManaged g) || DTO.IsInherited g); cbn [negb List.map];
    rewrite IH; reflexivity.
Qed.

(** C9. The hash of an entry is [HashString] of the role, the team and
    user identifiers with their org prefix stripped, and the permission,
    put together in that order. Two entries with the same role and
    permission whose team and user identifiers are the same once the org
    prefix is stripped (["5"] and ["1:5"]) have the same hash, and a set
    built from the two has one member; so has a set built from an entry
    twice. *)
Theorem permissionHash_ignores_org (HashString : string -> Z)
    (e1 e2 : PermissionEntry) :
  role e1 = role e2 ->
  permission e1 = permission e2 ->
  strip_org (team_id e1) = strip_org (team_id e2) ->
  strip_org (user_id e1) = strip_org (user_id e2) ->
  permissionHash HashString e1
  = HashString (role e1 ++ strip_org (team_id e1) ++ strip_org (user_id e1)
                ++ permission e1) /\
  permissionHash HashString e1 = permissionHash HashString e2 /\
  schema.Len (schema.NewSet (permissionHash HashString) [e1; e2]) = 1%nat /\
  schema.Len (schema.NewSet (permissionHash HashString) [e1; e1]) = 1%nat.
Proof.
  intros Hrole Hperm Hteam Huser.
  assert (Hhash : forall e,
    permissionHash HashString e
    = HashString (role e ++ strip_org (team_id e) ++ strip_org (user_id e)
                  ++ permission e)).
  { intros e. unfold permissionHash, strip_org.
    destruct (SplitOrgResourceID (team_id e)), (SplitOrgResourceID (user_id e)).
    reflexivity. }
  assert (Heq : permissionHash HashString e1 = permissionHash HashString e2).
  { rewrite !Hhash, Hrole, Hperm, Hteam, Huser. reflexivity. }
  split; [apply Hhash |]. split; [exact Heq |].
  split; apply NewSet_collapse; [exact Heq | reflexivity].
Qed.

Lemma permissionHash_ignores_org_witness :
  permissionHash scenario.length_hash scenario.team5_entry
  = permissionHash scenario.length_hash scenario.team5_scoped_entry
  /\ schema.Len (schema.NewSet (permissionHash scenario.length_hash)
                   [scenario.team5_entry; scenario.team5_scoped_entry])
     = 1%nat.
Proof.
  destruct (permissionHash_ignores_org scenario.length_hash
              scenario.team5_entry scenario.team5_scoped_entry
              eq_refl eq_refl eq_refl eq_refl) as (_ & Heq & Hlen & _).
  split; [exact Heq | exact Hlen].
Defined.

(** ** The callbacks *)

Section Reconciler_facts.
Context `{API : GrafanaAPI}.

Local Ltac run :=
  unfold mbind, M_bind, mret, M_ret, getData, request, SetId, Set_org_id,
    Set_folder_uid, Set_permissions, modifyData; cbn [data world calls].

(** Reading when the folder is gone: one call, no error, and the
    identifier dropped. *)
Lemma Read_folder_not_found (meta : Meta) (st : St) (client : Client)
    (orgID : Z) (folderUID : string) (e : apiError) (w : World) :
  OAPIClientFromExistingOrgResource meta (Id (data st))
  = (client, orgID, folderUID) ->
  GetFolderByUID client folderUID (world st) = (Some e, w) ->
  IsNotFound e = true ->
  ReadFolderPermissions meta st
  = ([], {| data := withId "" (data st); world := w;
            calls := (calls st ++ [CallGetFolderByUID folderUID])%list |}).
Proof.
  intros Hid Hget Hnf. unfold ReadFolderPermissions. run.
  rewrite Hid, Hget. unfold CheckReadError. rewrite Hnf. run. reflexivity.
Qed.

(** Reading makes no call that changes grants. *)
Lemma Read_calls (meta : Meta) (st : St) :
  exists reads,
    calls (snd (ReadFolderPermissions meta st)) = (calls st ++ reads)%list
    /\ List.filter is_write reads = [].
Proof.
  unfold ReadFolderPermissions. run.
  destruct (OAPIClientFromExistingOrgResource meta (Id (data st)))
    as [[client orgID] folderUID].
  destruct (GetFolderByUID client folderUID (world st)) as [[e|] w].
  - exists [CallGetFolderByUID folderUID]. unfold CheckReadError.
    destruct (IsNotFound e); run; split; reflexivity.
  - unfold CheckReadError at 1. run.
    destruct (GetResourcePermissions client folderUID
                foldersPermissionsType w) as [[e|grants] w'].
    + exists [CallGetFolderByUID folderUID;
              CallGetResourcePermissions folderUID foldersPermissionsType].
      unfold CheckReadError.
      destruct (IsNotFound e); run; rewrite <- app_assoc; split; reflexivity.
    + exists [CallGetFolderByUID folderUID;
              CallGetResourcePermissions folderUID foldersPermissionsType].
      unfold CheckReadError. run. rewrite <- app_assoc. split; reflexivity.
Qed.

(** The identifier after a read is the one before, the empty one, or
    the identifier decoded and encoded again. *)
Lemma Read_Id (meta : Meta) (st : St) (client : Client) (orgID : Z)
    (folderUID : string) :
  OAPIClientFromExistingOrgResource meta (Id (data st))
  = (client, orgID, folderUID) ->
  Id (data (snd (ReadFolderPermissions meta st))) = Id (data st)
  \/ Id (data (snd (ReadFolderPermissions meta st))) = ""
  \/ Id (data (snd (ReadFolderPermissions meta st)))
     = MakeOrgResourceID orgID folderUID.
Proof.
  intros Hid.
  set (P := fun id : string =>
         id = Id (data st) \/ id = ""
         \/ id = MakeOrgResourceID orgID folderUID).
  change (P (Id (data (snd (ReadFolderPermissions meta st))))).
  unfold ReadFolderPermissions. run. rewrite Hid.
  destruct (GetFolderByUID client folderUID (world st)) as [[e|] w].
  - unfold CheckReadError.
    destruct (IsNotFound e); run; unfold P; cbn; auto.
  - unfold CheckReadError at 1. run.
    destruct (GetResourcePermissions client folderUID
                foldersPermissionsType w) as [[e|grants] w'].
    + unfold CheckReadError.
      destruct (IsNotFound e); run; unfold P; cbn; auto.
    + unfold CheckReadError. run. unfold P. cbn. auto.
Qed.


Lemma OAPIClientFromExistingOrgResource_encode (meta : Meta) (orgID : Z)
    (folderUID : string) :
  - 2 ^ 63 <= orgID < 2 ^ 63 ->
  OAPIClientFromExistingOrgResource meta (MakeOrgResourceID orgID folderUID)
  = (WithOrgID meta orgID, orgID, folderUID).
Proof.
  intros Horg. unfold OAPIClientFromExistingOrgResource.
  rewrite decode_encode by exact Horg. reflexivity.
Qed.

(** C6. When the folder of the stored identifier is gone (the folder
    lookup answers with a not-found error), reading reports no error:
    it drops the stored identifier, leaves the attributes as they
    were, and returns after that single lookup, without fetching the
    grants. *)
Theorem Read_folder_gone (meta : Meta) (st : St) (client : Client)
    (orgID : Z) (folderUID : string) (e : apiError) (w : World) :
  OAPIClientFromExistingOrgResource meta (Id (data st))
  = (client, orgID, folderUID) ->
  GetFolderByUID client folderUID (world st) = (Some e, w) ->
  IsNotFound e = true ->
  let '(diags, st') := ReadFolderPermissions meta st in
  diags = [] /\ diag.HasError diags = false /\
  Id (data st') = "" /\
  permissions (data st') = permissions (data st) /\
  folder_uid (data st') = folder_uid (data st) /\
  org_id (data st') = org_id (data st) /\
  calls st' = (calls st ++ [CallGetFolderByUID folderUID])%list.
Proof.
  intros Hid Hget Hnf.
  rewrite (Read_folder_not_found meta st client orgID folderUID e w)
    by assumption.
  repeat split.
Qed.

(** C7. When the folder of the stored identifier is gone (the
    set-permissions call answers with a not-found error), deleting
    reports no error. *)
Theorem Delete_folder_gone (meta : Meta) (st : St) (client : Client)
    (orgID : Z) (folderUID : string) (e : apiError) (w : World) :
  OAPIClientFromExistingOrgResource meta (Id (data st))
  = (client, orgID, folderUID) ->
  SetResourcePermissions client folderUID foldersPermissionsType []
                         (world st) = (Some e, w) ->
  IsNotFound e = true ->
  let '(diags, st') := DeleteFolderPermissions meta st in
  diags = [] /\ diag.HasError diags = false /\
  calls st'
  = (calls st
     ++ [CallSetResourcePermissions folderUID foldersPermissionsType []])%list.
Proof.
  intros Hid Hset Hnf. unfold DeleteFolderPermissions. run.
  rewrite Hid. unfold updateResourcePermissions. run. rewrite Hset.
  unfold CheckReadError. rewrite Hnf. run. repeat split.
Qed.

Lemma GetOk_permissions_entries (d : ResourceData) :
  (let '(v, ok) := GetOk_permissions d in if ok : bool then v else [])
  = permissions d.
Proof. unfold GetOk_permissions. destruct (permissions d); reflexivity. Qed.

(** Create/update is the one set-permissions call, and on its success
    the identifier and the read-back. *)
Lemma Update_unfold (meta : Meta) (st : St) (client : Client) (orgID : Z) :
  OAPIClientFromNewOrgResource meta (data st) = (client, orgID) ->
  UpdateFolderPermissions meta st
  = let d := data st in
    let permissionList := List.map to_command (permissions d) in
    let '(err, w) :=
      SetResourcePermissions client (folder_uid d) foldersPermissionsType
                             permissionList (world st) in
    let st1 :=
      {| data := d; world := w;
         calls := (calls st
                   ++ [CallSetResourcePermissions (folder_uid d)
                         foldersPermissionsType permissionList])%list |} in
    match err with
    | Some e => (diag.FromErr e, st1)
    | None =>
      ReadFolderPermissions meta
        {| data := withId (MakeOrgResourceID orgID (folder_uid d)) d;
           world := world st1; calls := calls st1 |}
    end.
Proof.
  intros Hnew. unfold UpdateFolderPermissions. run. rewrite Hnew.
  rewrite GetOk_permissions_entries, buildPermissionList_map.
  unfold updateResourcePermissions. run.
  destruct (SetResourcePermissions client (folder_uid (data st))
              foldersPermissionsType
              (List.map to_command (permissions (data st))) (world st))
    as [[e|] w]; reflexivity.
Qed.

(** C8. When the set-permissions call returns an error, create/update
    returns that very error after this single call, and the resource
    data, the stored identifier with it, is as it was. When the call
    succeeds, create/update stores the identifier made of the org and
    the folder uid and goes on with the read-back of the resource;
    after it the identifier is still that one, unless the read-back
    found the folder gone and dropped it. *)
Theorem Update_error_or_identity (meta : Meta) (st : St) (client : Client)
    (orgID : Z) :
  OAPIClientFromNewOrgResource meta (data st) = (client, orgID) ->
  let d := data st in
  let permissionList := List.map to_command (permissions d) in
  let call :=
    CallSetResourcePermissions (folder_uid d) foldersPermissionsType
                               permissionList in
  let id := MakeOrgResourceID orgID (folder_uid d) in
  (forall (e : apiError) (w : World),
     SetResourcePermissions client (folder_uid d) foldersPermissionsType
                            permissionList (world st) = (Some e, w) ->
     UpdateFolderPermissions meta st
     = (diag.FromErr e,
        {| data := d; world := w; calls := (calls st ++ [call])%list |}))
  /\
  (forall w : World,
     SetResourcePermissions client (folder_uid d) foldersPermissionsType
                            permissionList (world st) = (None, w) ->
     UpdateFolderPermissions meta st
     = ReadFolderPermissions meta
         {| data := withId id d; world := w;
            calls := (calls st ++ [call])%list |}
     /\ (- 2 ^ 63 <= orgID < 2 ^ 63 ->
         Id (data (snd (UpdateFolderPermissions meta st))) = id
         \/ Id (data (snd (UpdateFolderPermissions meta st))) = "")).
Proof.
  intros Hnew d permissionList call id.
  pose proof (Update_unfold meta st client orgID Hnew) as Hup.
  cbv zeta in Hup. fold d permissionList call id in Hup.
  split.
  - intros e w Hset. rewrite Hup, Hset. reflexivity.
  - intros w Hset. rewrite Hup, Hset. cbn [world calls].
    split; [reflexivity |]. intros Horg.
    pose proof (Read_Id meta
                  {| data := withId id d; world := w;
                     calls := (calls st ++ [call])%list |}
                  (WithOrgID meta orgID) orgID (folder_uid d)) as Hread.
    cbn [data Id withId] in Hread. fold id in Hread.
    destruct Hread as [H|[H|H]]; auto.
    apply OAPIClientFromExistingOrgResource_encode. exact Horg.
Qed.


End Reconciler_facts.

(** ** The callbacks on the server in memory *)

Lemma Read_folder_gone_witness :
  fst (@ReadFolderPermissions mem.api 1
         (mem.start (scenario.stored [scenario.team5_entry])
                    scenario.without_folder)) = []
  /\ Id (data (snd (@ReadFolderPermissions mem.api 1
         (mem.start (scenario.stored [scenario.team5_entry])
                    scenario.without_folder)))) = ""
  /\ calls (snd (@ReadFolderPermissions mem.api 1
         (mem.start (scenario.stored [scenario.team5_entry])
                    scenario.without_folder)))
     = [CallGetFolderByUID "abc123"].
Proof.
  pose proof (@Read_folder_gone mem.api 1
                (mem.start (scenario.stored [scenario.team5_entry])
                           scenario.without_folder)
                1 1 "abc123" mem.NotFound scenario.without_folder
                eq_refl eq_refl eq_refl) as H.
  destruct (@ReadFolderPermissions mem.api 1
              (mem.start (scenario.stored [scenario.team5_entry])
                         scenario.without_folder)) as [diags st'].
  destruct H as (Hd & _ & Hid & _ & _ & _ & Hcalls).
  split; [exact Hd |]. split; [exact Hid | exact Hcalls].
Defined.

Lemma Delete_folder_gone_witness :
  fst (@DeleteFolderPermissions mem.api 1
         (mem.start (scenario.stored [scenario.team5_entry])
                    scenario.without_folder)) = []
  /\ calls (snd (@DeleteFolderPermissions mem.api 1
         (mem.start (scenario.stored [scenario.team5_entry])
                    scenario.without_folder)))
     = [CallSetResourcePermissions "abc123" "folders" []].
Proof.
  pose proof (@Delete_folder_gone mem.api 1
                (mem.start (scenario.stored [scenario.team5_entry])
                           scenario.without_folder)
                1 1 "abc123" mem.NotFound scenario.without_folder
                eq_refl eq_refl eq_refl) as H.
  destruct (@DeleteFolderPermissions mem.api 1
              (mem.start (scenario.stored [scenario.team5_entry])
                         scenario.without_folder)) as [diags st'].
  destruct H as (Hd & _ & Hcalls).
  split; [exact Hd | exact Hcalls].
Defined.

Lemma Update_error_or_identity_witness :
  @UpdateFolderPermissions mem.api 1
    (mem.start (scenario.declared [scenario.editor_entry]) scenario.locked)
  = ([mem.Forbidden],
     mem.state (scenario.declared [scenario.editor_entry]) scenario.locked
       [CallSetResourcePermissions "abc123" "folders"
          [scenario.editor_command]])
  /\
  @UpdateFolderPermissions mem.api 1
    (mem.start (scenario.declared [scenario.editor_entry])
               (scenario.with_folder []))
  = @ReadFolderPermissions mem.api 1
      (mem.state (scenario.stored [scenario.editor_entry])
         (snd (mem.set_permissions "abc123" [scenario.editor_command]
                 (scenario.with_folder [])))
         [CallSetResourcePermissions "abc123" "folders"
            [scenario.editor_command]]).
Proof.
  split.
  - exact (proj1 (@Update_error_or_identity mem.api 1
                    (mem.start (scenario.declared [scenario.editor_entry])
                               scenario.locked) 1 1 eq_refl)
                 mem.Forbidden scenario.locked eq_refl).
  - exact (proj1 (proj2 (@Update_error_or_identity mem.api 1
                    (mem.start (scenario.declared [scenario.editor_entry])
                               (scenario.with_folder [])) 1 1 eq_refl)
                 (snd (mem.set_permissions "abc123" [scenario.editor_command]
                         (scenario.with_folder []))) eq_refl)).
Defined.


(** Scenario A, run: the declared editor entry on folder ["abc123"] of
    org 1 is submitted as one command and stored as ["1:abc123"]. *)
Example Update_scenario_A :
  let '(diags, st) :=
    @UpdateFolderPermissions mem.api 1
      (mem.start (scenario.declared [scenario.editor_entry])
                 (scenario.with_folder [scenario.team9_inherited_grant])) in
  diags = [] /\ Id (data st) = "1:abc123" /\
  permissions (data st) = [scenario.editor_entry] /\
  calls st = [CallSetResourcePermissions "abc123" "folders"
                [scenario.editor_command];
              CallGetFolderByUID "abc123";
              CallGetResourcePermissions "abc123" "folders"].
Proof. vm_compute. repeat split. Qed.

(** Scenario B, run: of the two grants only the direct one is read. *)
Example Read_scenario_B :
  let '(diags, st) :=
    @ReadFolderPermissions mem.api 1
      (mem.start (scenario.stored [])
                 (scenario.with_folder [scenario.team5_grant;
                                        scenario.team9_inherited_grant])) in
  diags = [] /\ permissions (data st) = [scenario.team5_entry].
Proof. vm_compute. repeat split. Qed.

(** Clearing and reading again: no managed grant is left, the inherited
    one is still on the server. *)
Example Delete_then_Read :
  let st0 := mem.start (scenario.stored [scenario.team5_entry])
               (scenario.with_folder [scenario.team5_grant;
                                      scenario.team9_inherited_grant]) in
  let '(diags1, st1) := @DeleteFolderPermissions mem.api 1 st0 in
  let '(diags2, st2) := @ReadFolderPermissions mem.api 1 st1 in
  diags1 = [] /\ diags2 = [] /\ permissions (data st2) = [] /\
  mem.folders (world st2) !! "abc123" = Some [scenario.team9_inherited_grant].
Proof. vm_compute. repeat split. Qed.

(** * Further properties of the resource *)

(** ** Permission names *)

(** X1. [parsePermissionType] gives a number other than -1 exactly for
    the three permission names of the schema; its values are -1, 1, 2 and
    4; and two strings with the same number other than -1 are the same
    name. *)
Theorem parsePermissionType_names :
  (forall p : string,
     parsePermissionType p <> -1 <-> List.In p permissionNames) /\
  (forall p : string, List.In (parsePermissionType p) [-1; 1; 2; 4]) /\
  (forall p q : string,
     parsePermissionType p = parsePermissionType q ->
     parsePermissionType p <> -1 -> p = q).
Proof.
  assert (Hcases : forall p : string,
    (p = "View" /\ parsePermissionType p = 1)
    \/ (p = "Edit" /\ parsePermissionType p = 2)
    \/ (p = "Admin" /\ parsePermissionType p = 4)
    \/ (~ List.In p permissionNames /\ parsePermissionType p = -1)).
  { intros p. unfold parsePermissionType, permissionNames.
    destruct (String.eqb_spec p "View") as [->|Hv]; [auto |].
    destruct (String.eqb_spec p "Edit") as [->|He]; [auto |].
    destruct (String.eqb_spec p "Admin") as [->|Ha]; [auto 6 |].
    right; right; right. split; [| reflexivity].
    cbn [List.In]. intros [H|[H|[H|[]]]]; congruence. }
  split; [| split].
  - intros p. unfold permissionNames in *. cbn [List.In] in *.
    destruct (Hcases p) as [[-> Hp]|[[-> Hp]|[[-> Hp]|[Hn Hp]]]];
      rewrite Hp; split; intros H; try discriminate; auto; tauto.
  - intros p. cbn [List.In].
    destruct (Hcases p) as [[_ Hp]|[[_ Hp]|[[_ Hp]|[_ Hp]]]];
      rewrite Hp; auto 6.
  - intros p q Heq Hp.
    destruct (Hcases p) as [[-> Hp']|[[-> Hp']|[[-> Hp']|[_ Hp']]]];
      destruct (Hcases q) as [[-> Hq]|[[-> Hq]|[[-> Hq]|[_ Hq]]]];
      congruence.
Qed.

Lemma parsePermissionType_names_witness :
  List.In "Edit" permissionNames /\ "Admin" = "Admin".
Proof.
  split.
  - apply (proj1 (proj1 parsePermissionType_names "Edit")).
    vm_compute. discriminate.
  - apply (proj2 (proj2 parsePermissionType_names) "Admin" "Admin");
      [reflexivity | vm_compute; discriminate].
Defined.

(** ** Entries, commands and the hash *)

Lemma permissionHash_key (HashString : string -> Z) (e : PermissionEntry) :
  permissionHash HashString e
  = HashString (role e ++ strip_org (team_id e) ++ strip_org (user_id e)
                ++ permission e).
Proof.
  unfold permissionHash, strip_org.
  destruct (SplitOrgResourceID (team_id e)), (SplitOrgResourceID (user_id e)).
  reflexivity.
Qed.

Lemma strip_org_FormatInt (i : Z) :
  strip_org (strconv.FormatInt i) = strconv.FormatInt i.
Proof.
  unfold strip_org, SplitOrgResourceID. rewrite cut_colon_FormatInt.
  reflexivity.
Qed.

Lemma strip_org_no_colon (s : string) : cut_colon s = None -> strip_org s = s.
Proof.
  intros Hs. unfold strip_org, SplitOrgResourceID. rewrite Hs. reflexivity.
Qed.

Lemma string_app_assoc (a b c : string) : (a ++ b) ++ c = a ++ b ++ c.
Proof.
  induction a as [|x a IH]; [reflexivity |].
  change (String x (a ++ b) ++ c = String x (a ++ b ++ c)).
  change (String x ((a ++ b) ++ c) = String x (a ++ b ++ c)).
  rewrite IH. reflexivity.
Qed.

Lemma cut_colon_append_None (a b : string) :
  cut_colon a = None -> cut_colon b = None -> cut_colon (a ++ b) = None.
Proof.
  intros Ha Hb. induction a as [|x a IH]; [exact Hb |].
  change (String x a ++ b) with (String x (a ++ b)).
  cbn [cut_colon] in *.
  destruct (Ascii.eqb x ":"); [discriminate |].
  destruct (cut_colon a) as [[u v]|]; [discriminate |].
  rewrite IH by reflexivity. reflexivity.
Qed.

(** X2. The command of an entry does not depend on the org prefix of its
    identifiers: two entries with the same role and permission whose
    [team_id] and [user_id] are the same once the prefix is stripped
    give the same command. *)
Theorem to_command_ignores_org (e1 e2 : PermissionEntry) :
  role e1 = role e2 ->
  permission e1 = permission e2 ->
  strip_org (team_id e1) = strip_org (team_id e2) ->
  strip_org (user_id e1) = strip_org (user_id e2) ->
  to_command e1 = to_command e2.
Proof.
  intros Hrole Hperm Hteam Huser. rewrite !to_command_fields.
  fold (strip_org (team_id e1)) (strip_org (team_id e2))
       (strip_org (user_id e1)) (strip_org (user_id e2)).
  rewrite Hrole, Hperm, Hteam, Huser. reflexivity.
Qed.

Lemma to_command_ignores_org_witness :
  to_command scenario.team5_entry = to_command scenario.team5_scoped_entry.
Proof.
  apply to_command_ignores_org; reflexivity.
Defined.

(** X3. What reading renders, create/update parses back: the entry read
    from a managed, direct grant whose ids are 64-bit integers gives a
    command with the role and permission of the grant and with its ids,
    a negative id becoming 0. *)
Theorem to_command_of_read_entry (g : DTO.t) :
  DTO.IsManaged g = true -> DTO.IsInherited g = false ->
  - 2 ^ 63 <= DTO.TeamID g < 2 ^ 63 ->
  - 2 ^ 63 <= DTO.UserID g < 2 ^ 63 ->
  exists e,
    to_entry g = Some e /\
    to_command e
    = {| Cmd.BuiltInRole := DTO.BuiltInRole g;
         Cmd.Permission := DTO.Permission g;
         Cmd.TeamID := Z.max 0 (DTO.TeamID g);
         Cmd.UserID := Z.max 0 (DTO.UserID g) |}.
Proof.
  intros Hm Hi Hteam Huser. unfold to_entry. rewrite Hm, Hi. cbn [negb orb].
  eexists. split; [reflexivity |].
  rewrite to_command_fields. cbn [role permission team_id user_id].
  fold (strip_org (strconv.FormatInt (DTO.TeamID g))).
  fold (strip_org (strconv.FormatInt (DTO.UserID g))).
  rewrite !strip_org_FormatInt, !ParseInt_FormatInt by assumption.
  cbn [fst]. f_equal.
  - destruct (Z.ltb_spec 0 (DTO.TeamID g)); lia.
  - destruct (Z.ltb_spec 0 (DTO.UserID g)); lia.
Qed.

Lemma to_command_of_read_entry_witness :
  exists e,
    to_entry scenario.team5_grant = Some e /\
    to_command e
    = {| Cmd.BuiltInRole := ""; Cmd.Permission := "View";
         Cmd.TeamID := 5; Cmd.UserID := 0 |}.
Proof.
  apply (to_command_of_read_entry scenario.team5_grant);
    (reflexivity || (cbn; lia)).
Defined.

(** X4. An entry and the entry read back once it is applied have the
    same hash, so that a set holding both has one member: this holds
    when the identifiers of the entry, org prefix stripped, are the
    decimal forms of 64-bit integers that are zero or positive. *)
Theorem permissionHash_after_apply (HashString : string -> Z)
    (e : PermissionEntry) (teamID userID : Z) :
  strip_org (team_id e) = strconv.FormatInt teamID -> 0 <= teamID < 2 ^ 63 ->
  strip_org (user_id e) = strconv.FormatInt userID -> 0 <= userID < 2 ^ 63 ->
  exists e',
    to_entry (managed_grant (to_command e)) = Some e' /\
    permissionHash HashString e' = permissionHash HashString e /\
    schema.Len (schema.NewSet (permissionHash HashString) [e; e']) = 1%nat.
Proof.
  intros Ht Hteam Hu Huser.
  exists {| role := role e; team_id := strconv.FormatInt teamID;
            user_id := strconv.FormatInt userID; permission := permission e |}.
  assert (Hhash :
    permissionHash HashString
      {| role := role e; team_id := strconv.FormatInt teamID;
         user_id := strconv.FormatInt userID; permission := permission e |}
    = permissionHash HashString e).
  { rewrite !permissionHash_key. cbn [role team_id user_id permission].
    rewrite !strip_org_FormatInt, Ht, Hu. reflexivity. }
  split; [| split; [exact Hhash |]].
  - rewrite to_command_fields.
    fold (strip_org (team_id e)) (strip_org (user_id e)).
    rewrite Ht, Hu, !ParseInt_FormatInt by lia. cbn [fst].
    unfold to_entry, managed_grant. cbn.
    replace (if 0 <? teamID then teamID else 0) with teamID
      by (destruct (Z.ltb_spec 0 teamID); lia).
    replace (if 0 <? userID then userID else 0) with userID
      by (destruct (Z.ltb_spec 0 userID); lia).
    reflexivity.
  - apply NewSet_collapse. symmetry. exact Hhash.
Qed.

Lemma permissionHash_after_apply_witness :
  exists e',
    to_entry (managed_grant (to_command scenario.team5_scoped_entry))
    = Some e' /\
    permissionHash scenario.length_hash e'
    = permissionHash scenario.length_hash scenario.team5_scoped_entry /\
    schema.Len (schema.NewSet (permissionHash scenario.length_hash)
                  [scenario.team5_scoped_entry; e']) = 1%nat.
Proof.
  apply (permissionHash_after_apply scenario.length_hash
           scenario.team5_scoped_entry 5 0); (reflexivity || lia).
Defined.

(** X5. The hash is taken of the four fields put end to end, with nothing
    between them: moving characters from the end of the [team_id] to the
    front of the [user_id] does not change it, whatever [HashString] is,
    and a set built from two such entries keeps only one of them. *)
Theorem permissionHash_shift (HashString : string -> Z)
    (r p a b c : string) :
  cut_colon a = None -> cut_colon b = None -> cut_colon c = None ->
  permissionHash HashString
    {| role := r; team_id := a ++ b; user_id := c; permission := p |}
  = permissionHash HashString
      {| role := r; team_id := a; user_id := b ++ c; permission := p |}
  /\
  schema.Len (schema.NewSet (permissionHash HashString)
    [ {| role := r; team_id := a ++ b; user_id := c; permission := p |};
      {| role := r; team_id := a; user_id := b ++ c; permission := p |} ])
  = 1%nat.
Proof.
  intros Ha Hb Hc.
  assert (Hhash :
    permissionHash HashString
      {| role := r; team_id := a ++ b; user_id := c; permission := p |}
    = permissionHash HashString
        {| role := r; team_id := a; user_id := b ++ c; permission := p |}).
  { rewrite !permissionHash_key. cbn [role team_id user_id permission].
    rewrite !strip_org_no_colon
      by (assumption || apply cut_colon_append_None; assumption).
    rewrite !string_app_assoc. reflexivity. }
  split; [exact Hhash | apply NewSet_collapse; exact Hhash].
Qed.

Lemma permissionHash_shift_witness :
  permissionHash scenario.length_hash sample.team12_user3
  = permissionHash scenario.length_hash sample.team1_user23
  /\ schema.Len (schema.NewSet (permissionHash scenario.length_hash)
                   [sample.team12_user3; sample.team1_user23]) = 1%nat
  /\ Cmd.TeamID (to_command sample.team12_user3) = 12
  /\ Cmd.TeamID (to_command sample.team1_user23) = 1.
Proof.
  destruct (permissionHash_shift scenario.length_hash "" "View" "1" "2" "3"
              eq_refl eq_refl eq_refl) as [Hhash Hlen].
  split; [exact Hhash |]. split; [exact Hlen |]. split; reflexivity.
Defined.

(** X6. Reading surfaces no entry exactly when every grant is unmanaged
    or inherited, and it never surfaces more entries than there are
    grants: there is one entry per managed, direct grant. *)
Theorem buildPermissionItems_count (grants : list DTO.t) :
  length (buildPermissionItems grants)
  = length (List.filter surfaced grants) /\
  (length (buildPermissionItems grants) <= length grants)%nat /\
  (buildPermissionItems grants = [] <->
   List.Forall (fun g => DTO.IsManaged g = false \/ DTO.IsInherited g = true)
               grants).
Proof.
  rewrite buildPermissionItems_omap.
  assert (Hlen : length (omap to_entry grants)
                 = length (List.filter surfaced grants)).
  { induction grants as [|g grants IH]; [reflexivity |].
    cbn [omap list_omap List.filter]. fold (omap to_entry grants).
    unfold to_entry at 1, surfaced at 1.
    destruct (negb (DTO.IsManaged g) || DTO.IsInherited g); cbn [negb length];
      rewrite IH; reflexivity. }
  split; [exact Hlen |]. split.
  - rewrite Hlen. apply List.filter_length_le.
  - clear Hlen. induction grants as [|g grants IH].
    + split; [constructor | reflexivity].
    + cbn [omap list_omap]. fold (omap to_entry grants).
      unfold to_entry at 1.
      destruct (DTO.IsManaged g) eqn:Hm, (DTO.IsInherited g) eqn:Hi;
        cbn [negb orb];
        try (rewrite IH; split;
             [intros H; constructor; auto | intros H; inversion H; auto]).
      split; [discriminate |].
      intros H. inversion H as [|? ? [Hg|Hg] _]; congruence.
Qed.

Lemma buildPermissionItems_count_witness :
  buildPermissionItems [scenario.team9_inherited_grant] = [].
Proof.
  apply (proj2 (proj2 (proj2 (buildPermissionItems_count
                                [scenario.team9_inherited_grant])))).
  constructor; [right; reflexivity | constructor].
Defined.

(** ** The callbacks, case by case *)

Section Callbacks_by_cases.
Context `{API : GrafanaAPI}.

Local Ltac run :=
  unfold mbind, M_bind, mret, M_ret, getData, request, SetId, Set_org_id,
    Set_folder_uid, Set_permissions, modifyData; cbn [data world calls].

(** Reading, written out: the folder lookup, then the fetch of the
    grants, each followed by [CheckReadError]. *)
Lemma Read_unfold (meta : Meta) (st : St) (client : Client) (orgID : Z)
    (folderUID : string) :
  OAPIClientFromExistingOrgResource meta (Id (data st))
  = (client, orgID, folderUID) ->
  ReadFolderPermissions meta st
  = let '(err, w) := GetFolderByUID client folderUID (world st) in
    let log1 := (calls st ++ [CallGetFolderByUID folderUID])%list in
    match err with
    | Some e =>
      if IsNotFound e
      then ([], {| data := withId "" (data st); world := w; calls := log1 |})
      else (diag.FromErr e, {| data := data st; world := w; calls := log1 |})
    | None =>
      let '(resp, w') :=
        GetResourcePermissions client folderUID foldersPermissionsType w in
      let log2 :=
        (calls st
         ++ [CallGetFolderByUID folderUID;
             CallGetResourcePermissions folderUID foldersPermissionsType])%list
      in
      match resp with
      | inl e =>
        if IsNotFound e
        then ([], {| data := withId "" (data st); world := w';
                     calls := log2 |})
        else (diag.FromErr e,
              {| data := data st; world := w'; calls := log2 |})
      | inr grants =>
        ([], {| data := {| Id := MakeOrgResourceID orgID folderUID;
                           org_id := strconv.FormatInt orgID;
                           folder_uid := folderUID;
                           permissions :=
                         schema.ListOfItems (permissionHash HashString)
                           (omap to_entry grants) |};
                world := w'; calls := log2 |})
      end
    end.
Proof.
  intros Hid. unfold ReadFolderPermissions. run. rewrite Hid.
  destruct (GetFolderByUID client folderUID (world st)) as [[e|] w].
  - unfold CheckReadError. destruct (IsNotFound e); reflexivity.
  - unfold CheckReadError at 1. run.
    destruct (GetResourcePermissions client folderUID
                foldersPermissionsType w) as [[e|grants] w'].
    + unfold CheckReadError.
      destruct (IsNotFound e); run; rewrite <- app_assoc; reflexivity.
    + unfold CheckReadError. run.
      rewrite buildPermissionItems_omap, <- app_assoc. reflexivity.
Qed.

Lemma Read_calls_exact (meta : Meta) (st : St) (client : Client)
    (orgID : Z) (folderUID : string) :
  OAPIClientFromExistingOrgResource meta (Id (data st))
  = (client, orgID, folderUID) ->
  calls (snd (ReadFolderPermissions meta st))
  = (calls st
     ++ CallGetFolderByUID folderUID
        :: match fst (GetFolderByUID client folderUID (world st)) with
           | None => [CallGetResourcePermissions folderUID "folders"]
           | Some _ => []
           end)%list.
Proof.
  intros Hid. rewrite (Read_unfold meta st client orgID folderUID Hid).
  destruct (GetFolderByUID client folderUID (world st)) as [[e|] w];
    cbn [fst].
  - destruct (IsNotFound e); reflexivity.
  - destruct (GetResourcePermissions client folderUID
                foldersPermissionsType w) as [[e|grants] w'];
      [destruct (IsNotFound e) |]; reflexivity.
Qed.

(** X7. Reading makes one or two calls and none of them changes grants:
    the folder lookup, and the fetch of the grants of the folder only
    when that lookup returned no error. *)
Theorem Read_makes_only_lookups (meta : Meta) (st : St) (client : Client)
    (orgID : Z) (folderUID : string) :
  OAPIClientFromExistingOrgResource meta (Id (data st))
  = (client, orgID, folderUID) ->
  calls (snd (ReadFolderPermissions meta st))
  = (calls st
     ++ CallGetFolderByUID folderUID
        :: match fst (GetFolderByUID client folderUID (world st)) with
           | None => [CallGetResourcePermissions folderUID "folders"]
           | Some _ => []
           end)%list
  /\ List.filter is_write (calls (snd (ReadFolderPermissions meta st)))
     = List.filter is_write (calls st).
Proof.
  intros Hid.
  pose proof (Read_calls_exact meta st client orgID folderUID Hid) as Hcalls.
  split; [exact Hcalls |].
  rewrite Hcalls, List.filter_app.
  destruct (fst (GetFolderByUID client folderUID (world st)));
    cbn [List.filter is_write]; apply app_nil_r.
Qed.

(** X8. When the folder is there and its grants are fetched, reading
    reports no error and sets every attribute from the identifier and
    the answer of the server: the identifier is encoded again, [org_id]
    is the org in decimal, [folder_uid] the uid, and the permissions are
    the set of the entries of the managed, direct grants, as the set
    attribute keeps them: entries with the same hash code are one, and
    they are listed in the order of their codes. Every entry kept is the
    entry of such a grant, and there are no more entries than such
    grants. *)
Theorem Read_success (meta : Meta) (st : St) (client : Client) (orgID : Z)
    (folderUID : string) (w w' : World) (grants : list DTO.t) :
  OAPIClientFromExistingOrgResource meta (Id (data st))
  = (client, orgID, folderUID) ->
  GetFolderByUID client folderUID (world st) = (None, w) ->
  GetResourcePermissions client folderUID foldersPermissionsType w
  = (inr grants, w') ->
  let '(diags, st') := ReadFolderPermissions meta st in
  diags = [] /\
  Id (data st') = MakeOrgResourceID orgID folderUID /\
  org_id (data st') = strconv.FormatInt orgID /\
  folder_uid (data st') = folderUID /\
  permissions (data st')
  = schema.ListOfItems (permissionHash HashString)
      (List.map entry_of_grant (List.filter surfaced grants)) /\
  (forall e, List.In e (permissions (data st')) ->
     exists g, List.In g grants /\ surfaced g = true /\ e = entry_of_grant g) /\
  (length (permissions (data st'))
   <= length (List.filter surfaced grants))%nat /\
  world st' = w'.
Proof.
  intros Hid Hfolder Hgrants.
  rewrite (Read_unfold meta st client orgID folderUID Hid), Hfolder, Hgrants.
  cbn [data Id org_id folder_uid permissions world].
  rewrite omap_to_entry.
  split; [reflexivity |]. split; [reflexivity |]. split; [reflexivity |].
  split; [reflexivity |]. split; [reflexivity |].
  split; [| split; [| reflexivity]].
  - intros e He. apply In_ListOfItems in He.
    apply List.in_map_iff in He. destruct He as (g & <- & Hg).
    apply List.filter_In in Hg. destruct Hg as [Hg Hs].
    exists g. auto.
  - etransitivity; [apply ListOfItems_length_le |].
    rewrite length_map. reflexivity.
Qed.

(** X9. Reading uses the stored identifier and nothing else of the
    resource data: from two resource data with the same identifier it
    returns the same diagnostics, makes the same calls and leaves the
    same identifier, and when no lookup fails the resource data after it
    are the same. This is what makes the passthrough import work. *)
Theorem Read_depends_on_Id_only (meta : Meta) (d1 d2 : ResourceData)
    (w : World) (log : list Call) :
  Id d1 = Id d2 ->
  let r1 := ReadFolderPermissions meta {| data := d1; world := w; calls := log |} in
  let r2 := ReadFolderPermissions meta {| data := d2; world := w; calls := log |} in
  fst r1 = fst r2 /\
  calls (snd r1) = calls (snd r2) /\
  Id (data (snd r1)) = Id (data (snd r2)) /\
  (fst r1 = [] -> Id (data (snd r1)) <> "" -> data (snd r1) = data (snd r2)).
Proof.
  intros Hid r1 r2. subst r1 r2.
  destruct (OAPIClientFromExistingOrgResource meta (Id d1))
    as [[client orgID] folderUID] eqn:H1.
  assert (H2 : OAPIClientFromExistingOrgResource meta (Id d2)
               = (client, orgID, folderUID)) by (rewrite <- Hid; exact H1).
  rewrite (Read_unfold meta (mkSt d1 w log) client orgID folderUID H1).
  rewrite (Read_unfold meta (mkSt d2 w log) client orgID folderUID H2).
  cbn [data world calls].
  destruct (GetFolderByUID client folderUID w) as [[e|] w1].
  - destruct (IsNotFound e); cbn; repeat split; auto; try congruence.
    intros H; discriminate H.
  - destruct (GetResourcePermissions client folderUID
                foldersPermissionsType w1) as [[e|grants] w2].
    + destruct (IsNotFound e); cbn; repeat split; auto; try congruence.
      intros H; discriminate H.
    + cbn. repeat split.
Qed.

(** X10. When a lookup fails with an error that is not a not-found,
    reading returns that error and leaves the resource data as they
    were; a failed folder lookup is the only call then. When the fetch
    of the grants answers not-found, reading reports no error and drops
    the identifier, as for a folder that is gone. *)
Theorem Read_lookup_errors (meta : Meta) (st : St) (client : Client)
    (orgID : Z) (folderUID : string) :
  OAPIClientFromExistingOrgResource meta (Id (data st))
  = (client, orgID, folderUID) ->
  (forall (e : apiError) (w : World),
     GetFolderByUID client folderUID (world st) = (Some e, w) ->
     IsNotFound e = false ->
     ReadFolderPermissions meta st
     = (diag.FromErr e,
        {| data := data st; world := w;
           calls := (calls st ++ [CallGetFolderByUID folderUID])%list |})) /\
  (forall (e : apiError) (w w' : World),
     GetFolderByUID client folderUID (world st) = (None, w) ->
     GetResourcePermissions client folderUID foldersPermissionsType w
     = (inl e, w') ->
     ReadFolderPermissions meta st
     = (if IsNotFound e then [] else diag.FromErr e,
        {| data := if IsNotFound e then withId "" (data st) else data st;
           world := w';
           calls := (calls st
                     ++ [CallGetFolderByUID folderUID;
                         CallGetResourcePermissions folderUID "folders"])%list
        |})).
Proof.
  intros Hid. split.
  - intros e w Hfolder Hnf.
    rewrite (Read_unfold meta st client orgID folderUID Hid), Hfolder, Hnf.
    reflexivity.
  - intros e w w' Hfolder Hgrants.
    rewrite (Read_unfold meta st client orgID folderUID Hid), Hfolder, Hgrants.
    destruct (IsNotFound e); reflexivity.
Qed.

(** X11. Create/update makes exactly one call that changes grants, and
    makes it first: set-permissions for the [folder_uid] attribute and
    the type ["folders"], with one command per declared entry, in
    order. At most two calls follow, and they only read. *)
Theorem Update_writes_once (meta : Meta) (st : St) :
  exists reads,
    calls (snd (UpdateFolderPermissions meta st))
    = (calls st
       ++ CallSetResourcePermissions (folder_uid (data st)) "folders"
            (List.map to_command (permissions (data st)))
          :: reads)%list
    /\ List.filter is_write reads = []
    /\ (length reads <= 2)%nat
    /\ length (List.map to_command (permissions (data st)))
       = length (permissions (data st)).
Proof.
  destruct (OAPIClientFromNewOrgResource meta (data st))
    as [client orgID] eqn:Hnew.
  rewrite (Update_unfold meta st client orgID Hnew). cbv zeta.
  destruct (SetResourcePermissions client (folder_uid (data st))
              foldersPermissionsType
              (List.map to_command (permissions (data st))) (world st))
    as [[e|] w].
  - exists []. cbn [snd calls].
    split; [reflexivity | split; [reflexivity | split]];
      [cbn [length]; lia | apply length_map].
  - cbn [world calls].
    match goal with
    | |- context [ReadFolderPermissions meta ?st1] => set (st1' := st1)
    end.
    destruct (OAPIClientFromExistingOrgResource meta (Id (data st1')))
      as [[client' orgID'] folderUID'] eqn:Hid.
    pose proof (Read_calls_exact meta st1' client' orgID'
                  folderUID' Hid) as Hcalls.
    exists (CallGetFolderByUID folderUID'
            :: match fst (GetFolderByUID client' folderUID' (world st1')) with
               | None => [CallGetResourcePermissions folderUID' "folders"]
               | Some _ => []
               end).
    split; [| split; [| split]].
    + rewrite Hcalls. subst st1'. cbn [calls].
      rewrite <- app_assoc. reflexivity.
    + destruct (fst (GetFolderByUID client' folderUID' (world st1')));
        reflexivity.
    + destruct (fst (GetFolderByUID client' folderUID' (world st1')));
        cbn [length]; lia.
    + apply length_map.
Qed.

(** X12. When the set-permissions call, the folder lookup and the fetch
    of the grants all succeed, create/update reports no error after
    these three calls, and the resource data are those of the read-back:
    the identifier made of the org and the folder uid, the org in
    decimal, and as permissions the set of the entries of the managed,
    direct grants the server reports (entries with the same hash code
    are one, listed in the order of their codes), not the declared
    entries. The read-back goes through the client of the org of the
    identifier. *)
Theorem Update_success (meta : Meta) (st : St) (client : Client) (orgID : Z)
    (w1 w2 w3 : World) (grants : list DTO.t) :
  OAPIClientFromNewOrgResource meta (data st) = (client, orgID) ->
  - 2 ^ 63 <= orgID < 2 ^ 63 ->
  SetResourcePermissions client (folder_uid (data st)) foldersPermissionsType
    (List.map to_command (permissions (data st))) (world st) = (None, w1) ->
  GetFolderByUID (WithOrgID meta orgID) (folder_uid (data st)) w1
  = (None, w2) ->
  GetResourcePermissions (WithOrgID meta orgID) (folder_uid (data st))
    foldersPermissionsType w2 = (inr grants, w3) ->
  UpdateFolderPermissions meta st
  = ([], {| data := {| Id := MakeOrgResourceID orgID (folder_uid (data st));
                       org_id := strconv.FormatInt orgID;
                       folder_uid := folder_uid (data st);
                       permissions :=
                         schema.ListOfItems (permissionHash HashString)
                           (omap to_entry grants) |};
            world := w3;
            calls :=
              (calls st
               ++ [CallSetResourcePermissions (folder_uid (data st)) "folders"
                     (List.map to_command (permissions (data st)));
                   CallGetFolderByUID (folder_uid (data st));
                   CallGetResourcePermissions (folder_uid (data st))
                     "folders"])%list |}).
Proof.
  intros Hnew Horg Hset Hfolder Hgrants.
  rewrite (Update_unfold meta st client orgID Hnew). cbv zeta.
  rewrite Hset. cbn [world calls].
  rewrite (Read_unfold meta _ (WithOrgID meta orgID) orgID
             (folder_uid (data st)))
    by (cbn [data Id withId];
        apply OAPIClientFromExistingOrgResource_encode; exact Horg).
  cbn [data world calls]. rewrite Hfolder, Hgrants.
  rewrite <- app_assoc. reflexivity.
Qed.

(** X13. Deleting never changes the attributes of the resource and
    makes no call but the one set-permissions call. It reports an error
    exactly when that call fails with an error that is not a not-found,
    and the error is the one of the call; the identifier is dropped only
    when the call answers not-found. *)
Theorem Delete_by_cases (meta : Meta) (st : St) (client : Client)
    (orgID : Z) (folderUID : string) :
  OAPIClientFromExistingOrgResource meta (Id (data st))
  = (client, orgID, folderUID) ->
  let '(diags, st') := DeleteFolderPermissions meta st in
  permissions (data st') = permissions (data st) /\
  folder_uid (data st') = folder_uid (data st) /\
  org_id (data st') = org_id (data st) /\
  match fst (SetResourcePermissions client folderUID foldersPermissionsType
               [] (world st)) with
  | None => diags = [] /\ Id (data st') = Id (data st)
  | Some e =>
    if IsNotFound e then diags = [] /\ Id (data st') = ""
    else diags = diag.FromErr e /\ Id (data st') = Id (data st)
  end.
Proof.
  intros Hid. unfold DeleteFolderPermissions. run. rewrite Hid.
  unfold updateResourcePermissions. run.
  destruct (SetResourcePermissions client folderUID foldersPermissionsType
              [] (world st)) as [[e|] w]; unfold CheckReadError; cbn [fst].
  - destruct (IsNotFound e); run; repeat split.
  - run. repeat split.
Qed.

End Callbacks_by_cases.

(** ** The cases, run *)

Lemma Read_makes_only_lookups_witness :
  calls (snd (@ReadFolderPermissions canned.api 1
                (canned.state (scenario.stored []) canned.folder_refused [])))
  = [CallGetFolderByUID "abc123"]
  /\ List.filter is_write
       (calls (snd (@ReadFolderPermissions canned.api 1
          (canned.state (scenario.stored []) canned.folder_refused [])))) = [].
Proof.
  exact (@Read_makes_only_lookups canned.api 1
           (canned.state (scenario.stored []) canned.folder_refused [])
           1 1 "abc123" eq_refl).
Defined.

Lemma Read_success_witness :
  permissions (data (snd (@ReadFolderPermissions canned.api 1
    (canned.state (scenario.stored []) canned.all_fine []))))
  = [scenario.team5_entry]
  /\ Id (data (snd (@ReadFolderPermissions canned.api 1
    (canned.state (scenario.stored []) canned.all_fine [])))) = "1:abc123".
Proof.
  pose proof (@Read_success canned.api 1
                (canned.state (scenario.stored []) canned.all_fine [])
                1 1 "abc123" canned.all_fine canned.all_fine
                [scenario.team5_grant; scenario.team9_inherited_grant]
                eq_refl eq_refl eq_refl) as H.
  destruct (@ReadFolderPermissions canned.api 1
              (canned.state (scenario.stored []) canned.all_fine []))
    as [diags st'].
  destruct H as (_ & Hid & _ & _ & Hperm & _).
  split; [exact Hperm | exact Hid].
Defined.

Lemma Read_depends_on_Id_only_witness :
  data (snd (@ReadFolderPermissions canned.api 1
               (canned.state (scenario.stored []) canned.all_fine [])))
  = data (snd (@ReadFolderPermissions canned.api 1
                 (canned.state
                    {| Id := "1:abc123"; org_id := ""; folder_uid := "";
                       permissions := [scenario.editor_entry] |}
                    canned.all_fine []))).
Proof.
  apply (@Read_depends_on_Id_only canned.api 1
           (scenario.stored [])
           {| Id := "1:abc123"; org_id := ""; folder_uid := "";
              permissions := [scenario.editor_entry] |}
           canned.all_fine [] eq_refl);
    [reflexivity | vm_compute; discriminate].
Defined.

Lemma Read_lookup_errors_witness :
  @ReadFolderPermissions canned.api 1
    (canned.state (scenario.stored [scenario.team5_entry])
                  canned.folder_refused [])
  = ([mem.Forbidden],
     canned.state (scenario.stored [scenario.team5_entry])
       canned.folder_refused [CallGetFolderByUID "abc123"])
  /\
  @ReadFolderPermissions canned.api 1
    (canned.state (scenario.stored [scenario.team5_entry])
                  canned.grants_gone [])
  = ([],
     canned.state (withId "" (scenario.stored [scenario.team5_entry]))
       canned.grants_gone
       [CallGetFolderByUID "abc123";
        CallGetResourcePermissions "abc123" "folders"]).
Proof.
  split.
  - exact (proj1 (@Read_lookup_errors canned.api 1
                    (canned.state (scenario.stored [scenario.team5_entry])
                                  canned.folder_refused [])
                    1 1 "abc123" eq_refl)
                 mem.Forbidden canned.folder_refused eq_refl eq_refl).
  - exact (proj2 (@Read_lookup_errors canned.api 1
                    (canned.state (scenario.stored [scenario.team5_entry])
                                  canned.grants_gone [])
                    1 1 "abc123" eq_refl)
                 mem.NotFound canned.grants_gone canned.grants_gone
                 eq_refl eq_refl).
Defined.

Lemma Update_success_witness :
  @UpdateFolderPermissions canned.api 1
    (canned.state (scenario.declared [scenario.editor_entry])
                  canned.all_fine [])
  = ([],
     canned.state (scenario.stored [scenario.team5_entry]) canned.all_fine
       [CallSetResourcePermissions "abc123" "folders"
          [scenario.editor_command];
        CallGetFolderByUID "abc123";
        CallGetResourcePermissions "abc123" "folders"]).
Proof.
  apply (@Update_success canned.api 1
           (canned.state (scenario.declared [scenario.editor_entry])
                         canned.all_fine [])
           1 1 canned.all_fine canned.all_fine canned.all_fine
           [scenario.team5_grant; scenario.team9_inherited_grant]);
    (reflexivity || (cbn; lia)).
Defined.

Lemma Delete_by_cases_witness :
  fst (@DeleteFolderPermissions canned.api 1
         (canned.state (scenario.stored [scenario.team5_entry])
                       canned.set_refused [])) = [mem.Forbidden]
  /\ data (snd (@DeleteFolderPermissions canned.api 1
         (canned.state (scenario.stored [scenario.team5_entry])
                       canned.set_refused [])))
     = scenario.stored [scenario.team5_entry].
Proof.
  pose proof (@Delete_by_cases canned.api 1
                (canned.state (scenario.stored [scenario.team5_entry])
                              canned.set_refused [])
                1 1 "abc123" eq_refl) as H.
  destruct (@DeleteFolderPermissions canned.api 1
              (canned.state (scenario.stored [scenario.team5_entry])
                            canned.set_refused [])) as [diags st'].
  destruct H as (Hp & Hf & Ho & Hd & Hid).
  split; [exact Hd |].
  cbn [snd]. destruct st' as [[id o f ps] w log].
  cbn [data permissions folder_uid org_id Id] in *. subst. reflexivity.
Defined.

(** ** The declared set, applied and read *)

Example ex_ChecksumIEEE :
  List.map schema.ChecksumIEEE
    [""; "a"; "abc"; "123456789";
     "The quick brown fox jumps over the lazy dog"]
  = [0; 0xe8b7be43; 0x352441c2; 0xcbf43926; 0x414fa339].
Proof. vm_compute. reflexivity. Qed.


(** The fields of the command of an entry, one by one. *)
Lemma to_command_field_facts (e : PermissionEntry) :
  (role e <> "" -> Cmd.BuiltInRole (to_command e) = role e) /\
  (role e = "" -> Cmd.BuiltInRole (to_command e) = "") /\
  (let teamID := fst (strconv.ParseInt (strip_org (team_id e))) in
   (0 < teamID -> Cmd.TeamID (to_command e) = teamID) /\
   (teamID <= 0 -> Cmd.TeamID (to_command e) = 0)) /\
  (let userID := fst (strconv.ParseInt (strip_org (user_id e))) in
   (0 < userID -> Cmd.UserID (to_command e) = userID) /\
   (userID <= 0 -> Cmd.UserID (to_command e) = 0)) /\
  Cmd.Permission (to_command e) = permission e.
Proof.
  rewrite to_command_fields.
  cbn [Cmd.BuiltInRole Cmd.TeamID Cmd.UserID Cmd.Permission].
  fold (strip_org (team_id e)) (strip_org (user_id e)).
  repeat split; try congruence; intros Hc.
  - apply Z.ltb_lt in Hc. rewrite Hc. reflexivity.
  - apply Z.ltb_ge in Hc. rewrite Hc. reflexivity.
  - apply Z.ltb_lt in Hc. rewrite Hc. reflexivity.
  - apply Z.ltb_ge in Hc. rewrite Hc. reflexivity.
Qed.

Section Declared_set.
Context `{API : GrafanaAPI}.

(** C1. Create/update on the declared set: the first call it makes is the
    one set-permissions call, for the folder and the type ["folders"],
    and its command list has one command for every entry of the
    declared set, at the place of the entry in [Set.List] (declared
    entries with the same hash code are one entry of the set, so there
    are as many commands as the set has members). In the command of an
    entry, [BuiltInRole] is the role when that is not empty (and stays
    empty otherwise), [TeamID] and [UserID] are the integers parsed from
    [team_id] and [user_id] after the org prefix is stripped when they
    are greater than zero (and stay 0 otherwise), and [Permission] is
    the permission. For the declared set with the one entry
    [{role: "Editor", team_id: "0", user_id: "0", permission: "Edit"}]
    the list submitted is exactly [{"Editor", 0, 0, "Edit"}]. *)
Theorem Update_submits_commands (meta : Meta) (st : St)
    (declared : list PermissionEntry) :
  permissions (data st)
  = schema.ListOfItems (permissionHash HashString) declared ->
  exists cmds reads,
    calls (snd (UpdateFolderPermissions meta st))
    = (calls st
       ++ CallSetResourcePermissions (folder_uid (data st)) "folders" cmds
          :: reads)%list
    /\ List.filter is_write reads = []
    /\ length cmds
       = schema.Len (schema.NewSet (permissionHash HashString) declared)
    /\ (forall (i : nat) (e : PermissionEntry),
          permissions (data st) !! i = Some e ->
          List.In e declared /\
          exists c, cmds !! i = Some c /\
            (role e <> "" -> Cmd.BuiltInRole c = role e) /\
            (role e = "" -> Cmd.BuiltInRole c = "") /\
            (let teamID := fst (strconv.ParseInt (strip_org (team_id e))) in
             (0 < teamID -> Cmd.TeamID c = teamID) /\
             (teamID <= 0 -> Cmd.TeamID c = 0)) /\
            (let userID := fst (strconv.ParseInt (strip_org (user_id e))) in
             (0 < userID -> Cmd.UserID c = userID) /\
             (userID <= 0 -> Cmd.UserID c = 0)) /\
            Cmd.Permission c = permission e)
    /\ (forall e : PermissionEntry,
          List.In e declared ->
          exists e', List.In e' (permissions (data st))
            /\ schema.hash (permissionHash HashString) e'
               = schema.hash (permissionHash HashString) e
            /\ List.In (to_command e') cmds)
    /\ (declared = [scenario.editor_entry] ->
        cmds = [scenario.editor_command]).
Proof.
  intros Hset.
  exists (List.map to_command (permissions (data st))).
  destruct (OAPIClientFromNewOrgResource meta (data st))
    as [client orgID] eqn:Hnew.
  assert (Hcalls : exists reads,
    calls (snd (UpdateFolderPermissions meta st))
    = (calls st
       ++ CallSetResourcePermissions (folder_uid (data st)) "folders"
            (List.map to_command (permissions (data st)))
          :: reads)%list
    /\ List.filter is_write reads = []).
  { rewrite (Update_unfold meta st client orgID Hnew). cbv zeta.
    destruct (SetResourcePermissions client (folder_uid (data st))
                foldersPermissionsType
                (List.map to_command (permissions (data st))) (world st))
      as [[e|] w].
    - exists []. split; reflexivity.
    - cbn [world calls].
      match goal with
      | |- context [ReadFolderPermissions meta ?st1] =>
        destruct (Read_calls meta st1) as (reads & Hr & Hw)
      end.
      exists reads. split; [| exact Hw].
      rewrite Hr. cbn [calls]. rewrite <- app_assoc. reflexivity. }
  destruct Hcalls as (reads & Hcalls & Hreads).
  exists reads. split; [exact Hcalls |]. split; [exact Hreads |].
  split; [| split; [| split]].
  - rewrite length_map, Hset. apply ListOfItems_length.
  - intros i e Hi. split.
    + apply (In_ListOfItems (permissionHash HashString)). rewrite <- Hset.
      apply list_elem_of_In. eapply list_elem_of_lookup_2. exact Hi.
    + exists (to_command e). split.
      * rewrite list_lookup_fmap_Some. exists e. split; [reflexivity | exact Hi].
      * apply to_command_field_facts.
  - intros e He.
    destruct (ListOfItems_has (permissionHash HashString) declared e He)
      as (e' & Hin & Hhash).
    exists e'. rewrite Hset. split; [exact Hin |]. split; [exact Hhash |].
    apply List.in_map. exact Hin.
  - intros ->. rewrite Hset, ListOfItems_singleton. reflexivity.
Qed.


End Declared_set.

Lemma Update_submits_commands_witness :
  (exists cmds reads,
     calls (snd (@UpdateFolderPermissions canned.api 1
       (canned.state
          (scenario.declared
             (schema.ListOfItems (permissionHash schema.HashString)
                [sample.team12_user3; sample.team1_user23]))
          canned.all_fine [])))
     = CallSetResourcePermissions "abc123" "folders" cmds :: reads
     /\ length cmds = 1%nat)
  /\
  (exists cmds reads,
     calls (snd (@UpdateFolderPermissions canned.api 1
       (canned.state
          (scenario.declared
             (schema.ListOfItems (permissionHash schema.HashString)
                [scenario.editor_entry]))
          canned.all_fine [])))
     = CallSetResourcePermissions "abc123" "folders" cmds :: reads
     /\ cmds = [scenario.editor_command]).
Proof.
  split.
  - destruct (@Update_submits_commands canned.api 1
                (canned.state
                   (scenario.declared
                      (schema.ListOfItems (permissionHash schema.HashString)
                         [sample.team12_user3; sample.team1_user23]))
                   canned.all_fine [])
                [sample.team12_user3; sample.team1_user23] eq_refl)
      as (cmds & reads & Hcalls & _ & Hlen & _).
    exists cmds, reads. split; [exact Hcalls |].
    rewrite Hlen. vm_compute. reflexivity.
  - destruct (@Update_submits_commands canned.api 1
                (canned.state
                   (scenario.declared
                      (schema.ListOfItems (permissionHash schema.HashString)
                         [scenario.editor_entry]))
                   canned.all_fine [])
                [scenario.editor_entry] eq_refl)
      as (cmds & reads & Hcalls & _ & _ & _ & _ & Hone).
    exists cmds, reads. split; [exact Hcalls | exact (Hone eq_refl)].
Defined.


